(** * The extension orchestrator of [extension/backend.go]

    A shallow embedding of the three event watchers of [PrivacyService]
    ([watchForNewContracts], [watchForCancelledContracts],
    [watchForCompletionEvents]) in its two variants:

    - [Backend]  : [src/extension/backend.go], whose completion handler
                   checks the error of every call;
    - [Part000]  : [src/unnamed/part_000], whose completion handler drops
                   most errors with [_].

    The registry [currentContracts] is a [gmap]; every call the handlers
    make on a collaborator, every lock operation, every map mutation and
    every log line is recorded, in program order, in the list of actions a
    handler emits. *)

From Stdlib Require Import Strings.Byte.
From stdpp Require Import base option list gmap strings.

Set Default Proof Using "Type".

(** ** Data *)

Module common.
(** [common.Address] is a [20]byte and [common.Hash] a [32]byte; both
    are only compared and used as keys, so each is the number its bytes
    spell. *)
Definition Address := N.
Definition Hash := N.
Definition EncryptedPayloadHash := N.
End common.

Definition Bytes := list byte.

(** Go's [error] values: [None] is [nil]. *)
Definition error := string.

(** A Go call returning [(A, error)]: both components are always there,
    and [x, _ := f()] keeps the first whatever the second is. *)
Definition result (A : Type) : Type := A * option error.

Definition failed {A} (r : result A) : bool :=
  match r.2 with Some _ => true | None => false end.

Module Transaction.
(** [*types.Transaction]: the watchers read only [tx.Data()]. *)
Record t := { Data : Bytes }.
End Transaction.

Module Log.
(** [types.Log], the fields the watchers read. *)
Record t := {
  Address : common.Address;
  TxHash : common.Hash;
  Data : Bytes;
  BlockHash : common.Hash;
  BlockNumber : N
}.
End Log.

Module NewExtensionCreated.
(** the event [UnpackNewExtensionCreatedLog] decodes *)
Record t := { ToExtend : common.Address }.
End NewExtensionCreated.

Module ExtensionContract.
Record t := {
  Address : common.Address;
  Initiator : common.Address;
  ManagementContractAddress : common.Address;
  CreationData : Bytes
}.
End ExtensionContract.

Module SendTxArgs.
(** [ethapi.SendTxArgs], the two fields the watchers set *)
Record t := { From : common.Address; PrivateFor : list string }.
End SendTxArgs.

(** Handles returned by the management contract facade and the account
    manager; the watchers only pass them on. *)
Definition ContractExtenderCaller := N.
Definition ContractExtenderTransactor := N.
Definition TransactOpts := N.

(** [map[common.Address]*ExtensionContract]. A stored pointer is to a
    record allocated for that one log and never written again, so the map
    holds the records themselves. *)
Abbreviation Registry := (gmap N ExtensionContract.t).

(** ** Collaborators

    What each collaborator of [PrivacyService] answers during the
    processing of one log. A handler calls each of them at most once per
    log, so one such record per log describes any behaviour of the
    collaborators, also one that changes from log to log.

    The collaborators live outside these two files. They are taken to
    return (never to panic) and to leave [currentContracts] alone: [Save]
    is handed the map and the extension API the service, and both only
    read them. Here the transaction lookup returns a transaction; the
    lookup that returns the nil pointer, and what the creation watcher
    then does with it, is modelled apart, in [Backend_ptr] and
    [Part000_ptr]. *)
Record Collaborators := {
  extClient_TransactionByHash : common.Hash -> result Transaction.t;
  QuorumPrivateTxSigner_Sender : Transaction.t -> result common.Address;
  UnpackNewExtensionCreatedLog : Bytes -> result NewExtensionCreated.t;
  dataHandler_Save : Registry -> option error;
  BytesToEncryptedPayloadHash : Bytes -> common.EncryptedPayloadHash;
  ptm_IsSender : common.EncryptedPayloadHash -> result bool;
  ptm_GetParticipants : common.EncryptedPayloadHash -> result (list string);
  ptm_Receive : Bytes -> result Bytes;
  ptm_Send : Bytes -> string -> list string -> result Bytes;
  managementContractFacade_Caller :
    common.Address -> result ContractExtenderCaller;
  managementContractFacade_Transactor :
    common.Address -> result ContractExtenderTransactor;
  caller_Creator : ContractExtenderCaller -> result common.Address;
  caller_TargetRecipientPublicKeyHash : ContractExtenderCaller -> result string;
  caller_ContractToExtend : ContractExtenderCaller -> result common.Address;
  transactor_SetSharedStateHash :
    ContractExtenderTransactor -> TransactOpts -> string -> result Transaction.t;
  accountManager_Exists : common.Address -> bool;
  accountManager_GenerateTransactOptions : SendTxArgs.t -> result TransactOpts;
  stateFetcher_GetAddressStateFromBlock :
    common.Hash -> common.Address -> result Bytes;
  extensionAPI_ApproveContractExtension :
    common.Address -> bool -> SendTxArgs.t -> result string;
  extensionAPI_VoteOnContract :
    common.Address -> bool -> SendTxArgs.t -> result string;
  base64_DecodeString : string -> result Bytes;
  base64_EncodeToString : Bytes -> string
}.

(** ** Actions *)

Inductive Level := LvlError | LvlWarn | LvlDebug.

Inductive Action :=
  (* the mutex and the map *)
  | MuLock
  | MuUnlock
  | MapStore (a : common.Address) (c : ExtensionContract.t)
  | MapDelete (a : common.Address)
  | LogLine (lvl : Level) (msg : string)
  | Base64Decode (s : string)
  (* calls on collaborators *)
  | TransactionByHash (h : common.Hash)
  | Sender (tx : Transaction.t)
  | UnpackLog (data : Bytes)
  | Save (snapshot : Registry)
  | IsSender (h : common.EncryptedPayloadHash)
  | GetParticipants (h : common.EncryptedPayloadHash)
  | Receive (key : Bytes)
  | Send (data : Bytes) (from : string) (to : list string)
  | Caller (a : common.Address)
  | Transactor (a : common.Address)
  | Creator (c : ContractExtenderCaller)
  | TargetRecipientPublicKeyHash (c : ContractExtenderCaller)
  | ContractToExtend (c : ContractExtenderCaller)
  | SetSharedStateHash (t : ContractExtenderTransactor) (opts : TransactOpts)
      (hash : string)
  | AccountExists (a : common.Address)
  | GenerateTransactOptions (args : SendTxArgs.t)
  | GetAddressStateFromBlock (block : common.Hash) (a : common.Address)
  | ApproveContractExtension (a : common.Address) (vote : bool)
      (args : SendTxArgs.t)
  | VoteOnContract (a : common.Address) (vote : bool) (args : SendTxArgs.t).

(** ** The handler monad

    A handler runs on the registry and yields the registry it leaves and
    the actions it performed. Its value is [None] once the handler has
    left the processing of the log ([continue], or [return] from the
    closure of the completion watcher). *)
Definition M (A : Type) : Type := Registry -> option A * Registry * list Action.

Definition ret {A} (x : A) : M A := fun reg => (Some x, reg, []).

Definition bind {A B} (m : M A) (k : A -> M B) : M B := fun reg =>
  match m reg with
  | (Some x, reg1, t1) =>
      match k x reg1 with (y, reg2, t2) => (y, reg2, t1 ++ t2) end
  | (None, reg1, t1) => (None, reg1, t1)
  end.

Notation "'let*' x ':=' m 'in' k" := (bind m (fun x => k))
  (at level 10, x name, m at level 100, k at level 200).
Notation "m ';;' k" := (bind m (fun _ => k))
  (at level 100, k at level 200, right associativity).

Definition emit (a : Action) : M unit := fun reg => (Some tt, reg, [a]).

(** a call on a collaborator: recorded, then answered *)
Definition call {A} (a : Action) (answer : A) : M A := emit a ;; ret answer.

(** [continue] / [return]: the processing of this log ends here *)
Definition leave {A} : M A := fun reg => (None, reg, []).

Definition getContracts : M Registry := fun reg => (Some reg, reg, []).

(** [service.currentContracts[a] = &c] *)
Definition store (a : common.Address) (c : ExtensionContract.t) : M unit :=
  fun reg => (Some tt, <[a := c]> reg, [MapStore a c]).

(** [delete(service.currentContracts, a)] *)
Definition remove (a : common.Address) : M unit :=
  fun reg => (Some tt, delete a reg, [MapDelete a]).

Definition log_Error (msg : string) : M unit := emit (LogLine LvlError msg).
Definition log_Warn (msg : string) : M unit := emit (LogLine LvlWarn msg).
Definition log_Debug (msg : string) : M unit := emit (LogLine LvlDebug msg).

(** [defer cleanup] around [body]: [cleanup] runs however [body] ends *)
Definition deferring (cleanup : M unit) (body : M unit) : M unit := fun reg =>
  match body reg with
  | (_, reg1, t1) =>
      match cleanup reg1 with (y, reg2, t2) => (y, reg2, t1 ++ t2) end
  end.

Definition registry_of {A} (r : option A * Registry * list Action) : Registry := r.1.2.
Definition actions_of {A} (r : option A * Registry * list Action) : list Action := r.2.

Definition when (b : bool) (m : M unit) : M unit := if b then m else ret tt.

Definition is_err (e : option error) : bool :=
  match e with Some _ => true | None => false end.

(** ** [src/extension/backend.go] *)

Module Backend.

(** [case foundLog := <-incomingLogs] of [watchForNewContracts] *)
Definition watchForNewContracts_case_log
    (ext : Collaborators) (foundLog : Log.t) : M unit :=
  emit MuLock ;;
  let* tx_ := call (TransactionByHash (Log.TxHash foundLog))
                   (extClient_TransactionByHash ext (Log.TxHash foundLog)) in
  let tx := tx_.1 in
  let* from_ := call (Sender tx) (QuorumPrivateTxSigner_Sender ext tx) in
  let from := from_.1 in
  let* unpacked := call (UnpackLog (Log.Data foundLog))
                        (UnpackNewExtensionCreatedLog ext (Log.Data foundLog)) in
  let newExtensionEvent := unpacked.1 in
  when (failed unpacked)
    (log_Error "Error unpacking extension creation log" ;;
     log_Debug "Errored log" ;;
     emit MuUnlock ;;
     leave) ;;
  let newContractExtension := {|
    ExtensionContract.Address := NewExtensionCreated.ToExtend newExtensionEvent;
    ExtensionContract.Initiator := from;
    ExtensionContract.ManagementContractAddress := Log.Address foundLog;
    ExtensionContract.CreationData := Transaction.Data tx
  |} in
  store (Log.Address foundLog) newContractExtension ;;
  let* currentContracts := getContracts in
  let* err := call (Save currentContracts)
                   (dataHandler_Save ext currentContracts) in
  when (is_err err)
    (log_Error "Error writing extension data to file" ;;
     emit MuUnlock ;;
     leave) ;;
  emit MuUnlock ;;
  (* if party is sender then complete self voting *)
  let data := BytesToEncryptedPayloadHash ext
                (ExtensionContract.CreationData newContractExtension) in
  let* isSender_ := call (IsSender data) (ptm_IsSender ext data) in
  let isSender := isSender_.1 in
  when isSender
    (let* fetched := call (GetParticipants data) (ptm_GetParticipants ext data) in
     let fetchedParties := fetched.1 in
     when (failed fetched)
       (log_Error "Extension: unable to fetch all parties for extension management contract" ;;
        leave) ;;
     let mca := ExtensionContract.ManagementContractAddress newContractExtension in
     let* caller_ := call (Caller mca) (managementContractFacade_Caller ext mca) in
     let caller := caller_.1 in
     let* creator_ := call (Creator caller) (caller_Creator ext caller) in
     let contractCreator := creator_.1 in
     let txArgs := {| SendTxArgs.From := contractCreator;
                      SendTxArgs.PrivateFor := fetchedParties |} in
     let* voted := call (ApproveContractExtension mca true txArgs)
                        (extensionAPI_ApproveContractExtension ext mca true txArgs) in
     when (failed voted)
       (log_Error "Extension: initiator vote on management contract failed")).

(** [case l := <-incomingLogs] of [watchForCancelledContracts] *)
Definition watchForCancelledContracts_case_log
    (ext : Collaborators) (l : Log.t) : M unit :=
  emit MuLock ;;
  let* currentContracts := getContracts in
  when (bool_decide (is_Some (currentContracts !! Log.Address l)))
    (remove (Log.Address l) ;;
     let* currentContracts := getContracts in
     let* err := call (Save currentContracts)
                      (dataHandler_Save ext currentContracts) in
     when (is_err err)
       (log_Error "Faile to store list of contracts being extended")) ;;
  emit MuUnlock.

(** [case l := <-incomingLogs] of [watchForCompletionEvents] *)
Definition watchForCompletionEvents_case_log
    (ext : Collaborators) (l : Log.t) : M unit :=
  log_Debug "[SOS] Receieved a completion event" ;;
  emit MuLock ;;
  deferring (emit MuUnlock)
    (let* currentContracts := getContracts in
     match currentContracts !! Log.Address l with
     | None =>
         (* we didn't have this management contract, so ignore it *)
         log_Debug "[SOS] this node doesn't participate in the contract extender" ;;
         leave
     | Some extensionEntry =>
         (* Find the extension contract in order to interact with it *)
         let* caller_ := call (Caller (Log.Address l))
                              (managementContractFacade_Caller ext (Log.Address l)) in
         let caller := caller_.1 in
         when (failed caller_)
           (log_Error "service.managementContractFacade.Caller" ;; leave) ;;
         let* creator_ := call (Creator caller) (caller_Creator ext caller) in
         let contractCreator := creator_.1 in
         when (failed creator_)
           (log_Error "[contract] caller.Creator" ;; leave) ;;
         log_Debug "[SOS] check if this node has the account that created the contract extender" ;;
         let* known := call (AccountExists contractCreator)
                            (accountManager_Exists ext contractCreator) in
         when (negb known)
           (log_Warn "Account used to sign extension contract no longer available" ;;
            leave) ;;
         (* fetch all the participants and send *)
         let payload := BytesToEncryptedPayloadHash ext
                          (ExtensionContract.CreationData extensionEntry) in
         let* fetched := call (GetParticipants payload)
                              (ptm_GetParticipants ext payload) in
         let fetchedParties := fetched.1 in
         when (failed fetched)
           (log_Error "Extension: Unable to fetch all parties for extension management contract" ;;
            leave) ;;
         log_Debug "[SOS] able to fetch all parties" ;;
         let sendTxArgs := {| SendTxArgs.From := contractCreator;
                              SendTxArgs.PrivateFor := fetchedParties |} in
         let* txArgs_ := call (GenerateTransactOptions sendTxArgs)
                              (accountManager_GenerateTransactOptions ext sendTxArgs) in
         let txArgs := txArgs_.1 in
         when (failed txArgs_)
           (log_Error "service.accountManager.GenerateTransactOptions" ;; leave) ;;
         let* recipientHash_ := call (TargetRecipientPublicKeyHash caller)
                                     (caller_TargetRecipientPublicKeyHash ext caller) in
         let recipientHash := recipientHash_.1 in
         when (failed recipientHash_)
           (log_Error "[contract] caller.TargetRecipientPublicKeyHash" ;; leave) ;;
         let* decoded_ := call (Base64Decode recipientHash)
                               (base64_DecodeString ext recipientHash) in
         let decoded := decoded_.1 in
         when (failed decoded_)
           (log_Error "base64.StdEncoding.DecodeString" ;; leave) ;;
         let* recipient_ := call (Receive decoded) (ptm_Receive ext decoded) in
         let recipient := recipient_.1 in
         when (failed recipient_)
           (log_Error "[ptm] service.ptm.Receive" ;; leave) ;;
         log_Debug "[SOS] able to retrieve the public key of the new party" ;;
         (* we found the account, so we can send *)
         let* contractToExtend_ := call (ContractToExtend caller)
                                        (caller_ContractToExtend ext caller) in
         let contractToExtend := contractToExtend_.1 in
         when (failed contractToExtend_)
           (log_Error "[contract] caller.ContractToExtend" ;; leave) ;;
         log_Debug "[SOS] dump current state" ;;
         let* entireStateData_ :=
           call (GetAddressStateFromBlock (Log.BlockHash l) contractToExtend)
                (stateFetcher_GetAddressStateFromBlock ext (Log.BlockHash l)
                   contractToExtend) in
         let entireStateData := entireStateData_.1 in
         when (failed entireStateData_)
           (log_Error "[state] service.stateFetcher.GetAddressStateFromBlock" ;;
            leave) ;;
         log_Debug "[SOS] send the state dump to the new recipient" ;;
         (* send to PTM *)
         let to := [String.string_of_list_byte recipient] in
         let* hashOfStateData_ := call (Send entireStateData "" to)
                                       (ptm_Send ext entireStateData "" to) in
         let hashOfStateData := hashOfStateData_.1 in
         when (failed hashOfStateData_)
           (log_Error "[ptm] service.ptm.Send" ;; leave) ;;
         let hashofStateDataBase64 := base64_EncodeToString ext hashOfStateData in
         let* transactor_ := call (Transactor (Log.Address l))
                                  (managementContractFacade_Transactor ext
                                     (Log.Address l)) in
         let transactor := transactor_.1 in
         when (failed transactor_)
           (log_Error "service.managementContractFacade.Transactor" ;; leave) ;;
         log_Debug "[SOS] store the encrypted payload hash of dump state" ;;
         let* tx_ := call (SetSharedStateHash transactor txArgs hashofStateDataBase64)
                          (transactor_SetSharedStateHash ext transactor txArgs
                             hashofStateDataBase64) in
         if failed tx_
         then log_Error "[contract] transactor.SetSharedStateHash"
         else log_Debug "[SOS] transaction carrying shared state"
     end).

End Backend.

(** ** [src/unnamed/part_000] *)

Module Part000.

(** [case foundLog := <-incomingLogs] of [watchForNewContracts] *)
Definition watchForNewContracts_case_log
    (ext : Collaborators) (foundLog : Log.t) : M unit :=
  emit MuLock ;;
  let* tx_ := call (TransactionByHash (Log.TxHash foundLog))
                   (extClient_TransactionByHash ext (Log.TxHash foundLog)) in
  let tx := tx_.1 in
  let* from_ := call (Sender tx) (QuorumPrivateTxSigner_Sender ext tx) in
  let from := from_.1 in
  let* unpacked := call (UnpackLog (Log.Data foundLog))
                        (UnpackNewExtensionCreatedLog ext (Log.Data foundLog)) in
  let newExtensionEvent := unpacked.1 in
  when (failed unpacked)
    (log_Error "Error unpacking extension creation log" ;;
     log_Debug "Errored log" ;;
     emit MuUnlock ;;
     leave) ;;
  let newContractExtension := {|
    ExtensionContract.Address := NewExtensionCreated.ToExtend newExtensionEvent;
    ExtensionContract.Initiator := from;
    ExtensionContract.ManagementContractAddress := Log.Address foundLog;
    ExtensionContract.CreationData := Transaction.Data tx
  |} in
  store (Log.Address foundLog) newContractExtension ;;
  let* currentContracts := getContracts in
  let* err := call (Save currentContracts)
                   (dataHandler_Save ext currentContracts) in
  when (is_err err)
    (log_Error "Error writing extension data to file" ;;
     emit MuUnlock ;;
     leave) ;;
  emit MuUnlock ;;
  (* if party is sender then complete self voting *)
  let data := BytesToEncryptedPayloadHash ext
                (ExtensionContract.CreationData newContractExtension) in
  let* isSender_ := call (IsSender data) (ptm_IsSender ext data) in
  let isSender := isSender_.1 in
  when isSender
    (let* fetched := call (GetParticipants data) (ptm_GetParticipants ext data) in
     let fetchedParties := fetched.1 in
     when (failed fetched)
       (log_Error "Extension" ;;
        leave) ;;
     let mca := ExtensionContract.ManagementContractAddress newContractExtension in
     let* caller_ := call (Caller mca) (managementContractFacade_Caller ext mca) in
     let caller := caller_.1 in
     let* creator_ := call (Creator caller) (caller_Creator ext caller) in
     let contractCreator := creator_.1 in
     let txArgs := {| SendTxArgs.From := contractCreator;
                      SendTxArgs.PrivateFor := fetchedParties |} in
     let* voted := call (VoteOnContract mca true txArgs)
                        (extensionAPI_VoteOnContract ext mca true txArgs) in
     when (failed voted)
       (log_Error "Extension")).

(** [case l := <-incomingLogs] of [watchForCancelledContracts] *)
Definition watchForCancelledContracts_case_log
    (ext : Collaborators) (l : Log.t) : M unit :=
  emit MuLock ;;
  let* currentContracts := getContracts in
  when (bool_decide (is_Some (currentContracts !! Log.Address l)))
    (remove (Log.Address l) ;;
     let* currentContracts := getContracts in
     let* _ := call (Save currentContracts)
                    (dataHandler_Save ext currentContracts) in
     ret tt) ;;
  emit MuUnlock.

(** [case l := <-incomingLogs] of [watchForCompletionEvents] *)
Definition watchForCompletionEvents_case_log
    (ext : Collaborators) (l : Log.t) : M unit :=
  emit MuLock ;;
  let* currentContracts := getContracts in
  match currentContracts !! Log.Address l with
  | None =>
      (* we didn't have this management contract, so ignore it *)
      emit MuUnlock ;;
      leave
  | Some extensionEntry =>
      (* Find the extension contract in order to interact with it *)
      let* caller_ := call (Caller (Log.Address l))
                           (managementContractFacade_Caller ext (Log.Address l)) in
      let caller := caller_.1 in
      let* creator_ := call (Creator caller) (caller_Creator ext caller) in
      let contractCreator := creator_.1 in
      let* known := call (AccountExists contractCreator)
                         (accountManager_Exists ext contractCreator) in
      when (negb known)
        (log_Warn "Account used to sign extension contract no longer available" ;;
         emit MuUnlock ;;
         leave) ;;
      (* fetch all the participants and send *)
      let payload := BytesToEncryptedPayloadHash ext
                       (ExtensionContract.CreationData extensionEntry) in
      let* fetched := call (GetParticipants payload)
                           (ptm_GetParticipants ext payload) in
      let fetchedParties := fetched.1 in
      when (failed fetched)
        (log_Error "Extension" ;;
         emit MuUnlock ;;
         leave) ;;
      let sendTxArgs := {| SendTxArgs.From := contractCreator;
                           SendTxArgs.PrivateFor := fetchedParties |} in
      let* txArgs_ := call (GenerateTransactOptions sendTxArgs)
                           (accountManager_GenerateTransactOptions ext sendTxArgs) in
      let txArgs := txArgs_.1 in
      let* recipientHash_ := call (TargetRecipientPublicKeyHash caller)
                                  (caller_TargetRecipientPublicKeyHash ext caller) in
      let recipientHash := recipientHash_.1 in
      let* decoded_ := call (Base64Decode recipientHash)
                            (base64_DecodeString ext recipientHash) in
      let decoded := decoded_.1 in
      let* recipient_ := call (Receive decoded) (ptm_Receive ext decoded) in
      let recipient := recipient_.1 in
      (* we found the account, so we can send *)
      let* contractToExtend_ := call (ContractToExtend caller)
                                     (caller_ContractToExtend ext caller) in
      let contractToExtend := contractToExtend_.1 in
      let* entireStateData_ :=
        call (GetAddressStateFromBlock (Log.BlockHash l) contractToExtend)
             (stateFetcher_GetAddressStateFromBlock ext (Log.BlockHash l)
                contractToExtend) in
      let entireStateData := entireStateData_.1 in
      (* send to PTM *)
      let to := [String.string_of_list_byte recipient] in
      let* hashOfStateData_ := call (Send entireStateData "" to)
                                    (ptm_Send ext entireStateData "" to) in
      let hashOfStateData := hashOfStateData_.1 in
      let hashofStateDataBase64 := base64_EncodeToString ext hashOfStateData in
      let* transactor_ := call (Transactor (Log.Address l))
                               (managementContractFacade_Transactor ext
                                  (Log.Address l)) in
      let transactor := transactor_.1 in
      let* _ := call (SetSharedStateHash transactor txArgs hashofStateDataBase64)
                     (transactor_SetSharedStateHash ext transactor txArgs
                        hashofStateDataBase64) in
      emit MuUnlock
  end.

End Part000.

(** ** The watcher loops

    What one [select] of a watcher's [for] loop receives. The answers of
    the collaborators during the processing of a log travel with it. *)
Inductive Select :=
  | SubscriptionErr (err : error)
  | IncomingLog (ext : Collaborators) (l : Log.t)
  | StopChan.

(** how one iteration of the [for] loop ends *)
Inductive Flow := NextIteration | Return.

Definition Iteration : Type := Select -> Registry -> Flow * Registry * list Action.

(** the processing of a log is followed by the next iteration, however
    the handler left it *)
Definition handle_log (h : M unit) : Registry -> Flow * Registry * list Action :=
  fun reg => match h reg with (_, reg1, t) => (NextIteration, reg1, t) end.

(** [watchForNewContracts]: on a subscription error [break] leaves the
    [select] only, and the loop goes on. *)
Definition watchForNewContracts_select
    (case_log : Collaborators -> Log.t -> M unit) : Iteration := fun s =>
  match s with
  | SubscriptionErr err => fun reg =>
      (NextIteration, reg,
       [LogLine LvlError "Contract extension watcher subscription error"])
  | IncomingLog ext foundLog => handle_log (case_log ext foundLog)
  | StopChan => fun reg => (Return, reg, [])
  end.

(** [watchForCancelledContracts]: a subscription error ends the watcher. *)
Definition watchForCancelledContracts_select
    (case_log : Collaborators -> Log.t -> M unit) : Iteration := fun s =>
  match s with
  | SubscriptionErr err => fun reg =>
      (Return, reg,
       [LogLine LvlError "Contract cancellation extension watcher subscription error"])
  | IncomingLog ext l => handle_log (case_log ext l)
  | StopChan => fun reg => (Return, reg, [])
  end.

(** [watchForCompletionEvents]: the subscription is dropped ([_]), so its
    [select] has no case for a subscription error and never receives one. *)
Definition watchForCompletionEvents_select
    (case_log : Collaborators -> Log.t -> M unit) : Iteration := fun s =>
  match s with
  | SubscriptionErr err => fun reg => (NextIteration, reg, [])
  | IncomingLog ext l => handle_log (case_log ext l)
  | StopChan => fun reg => (Return, reg, [])
  end.

(** [for { select { ... } }] over what the channels deliver *)
Fixpoint for_select (body : Iteration) (inputs : list Select) (reg : Registry)
    : Registry * list Action :=
  match inputs with
  | [] => (reg, [])
  | s :: rest =>
      match body s reg with
      | (NextIteration, reg1, t1) =>
          match for_select body rest reg1 with (reg2, t2) => (reg2, t1 ++ t2) end
      | (Return, reg1, t1) => (reg1, t1)
      end
  end.

(** the goroutine each [watchFor...] function starts, in the variant [case_log]
    comes from *)
Definition watchForNewContracts (case_log : Collaborators -> Log.t -> M unit) :=
  for_select (watchForNewContracts_select case_log).

Definition watchForCancelledContracts (case_log : Collaborators -> Log.t -> M unit) :=
  for_select (watchForCancelledContracts_select case_log).

Definition watchForCompletionEvents (case_log : Collaborators -> Log.t -> M unit) :=
  for_select (watchForCompletionEvents_select case_log).

(** ** Sequences of processed logs

    The three watchers run concurrently and take the one mutex for every
    access to the map, so the processed logs form a sequence; each log is
    tagged with the watcher that received it. *)
Inductive Event :=
  | NewExtension (ext : Collaborators) (l : Log.t)
  | Finished (ext : Collaborators) (l : Log.t)
  | CanPerformStateShare (ext : Collaborators) (l : Log.t).

Inductive Variant := backend_go | part_000.

Definition watchForNewContracts_case_log (v : Variant) :=
  match v with
  | backend_go => Backend.watchForNewContracts_case_log
  | part_000 => Part000.watchForNewContracts_case_log
  end.

Definition watchForCancelledContracts_case_log (v : Variant) :=
  match v with
  | backend_go => Backend.watchForCancelledContracts_case_log
  | part_000 => Part000.watchForCancelledContracts_case_log
  end.

Definition watchForCompletionEvents_case_log (v : Variant) :=
  match v with
  | backend_go => Backend.watchForCompletionEvents_case_log
  | part_000 => Part000.watchForCompletionEvents_case_log
  end.

Definition process (v : Variant) (e : Event) : M unit :=
  match e with
  | NewExtension ext l => watchForNewContracts_case_log v ext l
  | Finished ext l => watchForCancelledContracts_case_log v ext l
  | CanPerformStateShare ext l => watchForCompletionEvents_case_log v ext l
  end.

Fixpoint run (v : Variant) (events : list Event) (reg : Registry)
    : Registry * list Action :=
  match events with
  | [] => (reg, [])
  | e :: rest =>
      match process v e reg with
      | (_, reg1, t1) =>
          match run v rest reg1 with (reg2, t2) => (reg2, t1 ++ t2) end
      end
  end.

(** ** Classifying actions *)

(** a call on a collaborator: the ledger client, the signer, the decoder,
    the persistence handler, the confidential transport, the management
    contract facade, the account manager, the state fetcher, the
    extension API *)
Definition is_external (a : Action) : bool :=
  match a with
  | MuLock | MuUnlock | MapStore _ _ | MapDelete _ | LogLine _ _
  | Base64Decode _ => false
  | _ => true
  end.

Definition is_mutation (a : Action) : bool :=
  match a with MapStore _ _ | MapDelete _ => true | _ => false end.

Definition is_Save (a : Action) : bool :=
  match a with Save _ => true | _ => false end.

Definition is_Send (a : Action) : bool :=
  match a with Send _ _ _ => true | _ => false end.

Definition is_SetSharedStateHash (a : Action) : bool :=
  match a with SetSharedStateHash _ _ _ => true | _ => false end.

(** the self-approval vote: [ApproveContractExtension] in [backend.go],
    [VoteOnContract] in [part_000] *)
Definition is_vote (a : Action) : bool :=
  match a with
  | ApproveContractExtension _ _ _ | VoteOnContract _ _ _ => true
  | _ => false
  end.

Definition count (p : Action -> bool) (t : list Action) : nat :=
  length (filter (fun a => p a = true) t).

(** ** Concrete collaborators and logs, for the examples *)

Definition ok {A} (x : A) : result A := (x, None).
Definition ko {A} (x : A) : result A := (x, Some "failed").

Definition answer {A} (x : A) (err : option error) : result A := (x, err).

(** collaborators whose answers are fixed, but for the listed ones *)
Definition collaborators (unpack save : option error) (isSender : bool)
    (participants : option error) (has_account : bool)
    (receive : option error) : Collaborators := {|
  extClient_TransactionByHash := fun _ => ok {| Transaction.Data := [x01; x02] |};
  QuorumPrivateTxSigner_Sender := fun _ => ok 187%N;
  UnpackNewExtensionCreatedLog := fun _ =>
    answer {| NewExtensionCreated.ToExtend := 170%N |} unpack;
  dataHandler_Save := fun _ => save;
  BytesToEncryptedPayloadHash := fun b => N.of_nat (length b);
  ptm_IsSender := fun _ => ok isSender;
  ptm_GetParticipants := fun _ => answer ["party1"; "party2"] participants;
  ptm_Receive := fun _ => answer [x41] receive;
  ptm_Send := fun _ _ _ => ok [x07];
  managementContractFacade_Caller := fun a => ok a;
  managementContractFacade_Transactor := fun a => ok a;
  caller_Creator := fun _ => ok 187%N;
  caller_TargetRecipientPublicKeyHash := fun _ => ok "a2V5";
  caller_ContractToExtend := fun _ => ok 170%N;
  transactor_SetSharedStateHash := fun _ _ _ => ok {| Transaction.Data := [] |};
  accountManager_Exists := fun _ => has_account;
  accountManager_GenerateTransactOptions := fun _ => ok 1%N;
  stateFetcher_GetAddressStateFromBlock := fun _ _ => ok [x09];
  extensionAPI_ApproveContractExtension := fun _ _ _ => ok "0xvote";
  extensionAPI_VoteOnContract := fun _ _ _ => ok "0xvote";
  base64_DecodeString := fun _ => ok [x6b; x65; x79];
  base64_EncodeToString := fun _ => "Bw=="
|}.

Definition all_fine : Collaborators := collaborators None None true None true None.

Definition log_at (a : common.Address) : Log.t := {|
  Log.Address := a; Log.TxHash := 11%N; Log.Data := [];
  Log.BlockHash := 12%N; Log.BlockNumber := 13%N
|}.

Definition record_at (a : common.Address) : ExtensionContract.t := {|
  ExtensionContract.Address := 170%N;
  ExtensionContract.Initiator := 187%N;
  ExtensionContract.ManagementContractAddress := a;
  ExtensionContract.CreationData := [x01; x02]
|}.

(** ** What a log does to the registry *)

(** the record [watchForNewContracts] builds for a log: the transaction
    and the sender are whatever the two calls returned, errors dropped *)
Definition newContractExtension (ext : Collaborators) (foundLog : Log.t)
    : ExtensionContract.t :=
  let tx := (extClient_TransactionByHash ext (Log.TxHash foundLog)).1 in
  {|
    ExtensionContract.Address :=
      NewExtensionCreated.ToExtend
        (UnpackNewExtensionCreatedLog ext (Log.Data foundLog)).1;
    ExtensionContract.Initiator := (QuorumPrivateTxSigner_Sender ext tx).1;
    ExtensionContract.ManagementContractAddress := Log.Address foundLog;
    ExtensionContract.CreationData := Transaction.Data tx
  |}.

Definition decodes (ext : Collaborators) (foundLog : Log.t) : bool :=
  negb (failed (UnpackNewExtensionCreatedLog ext (Log.Data foundLog))).

Definition effect (e : Event) (reg : Registry) : Registry :=
  match e with
  | NewExtension ext l =>
      if decodes ext l then <[Log.Address l := newContractExtension ext l]> reg
      else reg
  | Finished ext l => delete (Log.Address l) reg
  | CanPerformStateShare ext l => reg
  end.

(** ** Created and not yet cancelled *)

(** the log creates the proposal at [a]: a creation log of that address
    whose payload decodes *)
Definition creates (a : common.Address) (e : Event) : bool :=
  match e with
  | NewExtension ext l => bool_decide (Log.Address l = a) && decodes ext l
  | _ => false
  end.

(** the log cancels the proposal at [a] *)
Definition cancels (a : common.Address) (e : Event) : bool :=
  match e with
  | Finished ext l => bool_decide (Log.Address l = a)
  | _ => false
  end.

(** a creation for [a] has been processed and no cancellation for [a]
    has been processed since *)
Definition created_not_cancelled (a : common.Address) (events : list Event) : Prop :=
  exists before e after,
    events = before ++ e :: after /\ creates a e = true /\
    Forall (fun e' => cancels a e' = false) after.

(** ** Properties of the actions of a run *)

(** the answer the collaborators gave to a call was a failure: an error,
    or [false] from the account manager *)
Definition answer_failed (ext : Collaborators) (a : Action) : bool :=
  match a with
  | Base64Decode s => failed (base64_DecodeString ext s)
  | TransactionByHash h => failed (extClient_TransactionByHash ext h)
  | Sender tx => failed (QuorumPrivateTxSigner_Sender ext tx)
  | UnpackLog data => failed (UnpackNewExtensionCreatedLog ext data)
  | Save snapshot => is_err (dataHandler_Save ext snapshot)
  | IsSender h => failed (ptm_IsSender ext h)
  | GetParticipants h => failed (ptm_GetParticipants ext h)
  | Receive key => failed (ptm_Receive ext key)
  | Send data from to => failed (ptm_Send ext data from to)
  | Caller a => failed (managementContractFacade_Caller ext a)
  | Transactor a => failed (managementContractFacade_Transactor ext a)
  | Creator c => failed (caller_Creator ext c)
  | TargetRecipientPublicKeyHash c =>
      failed (caller_TargetRecipientPublicKeyHash ext c)
  | ContractToExtend c => failed (caller_ContractToExtend ext c)
  | SetSharedStateHash t opts hash =>
      failed (transactor_SetSharedStateHash ext t opts hash)
  | AccountExists a => negb (accountManager_Exists ext a)
  | GenerateTransactOptions args =>
      failed (accountManager_GenerateTransactOptions ext args)
  | GetAddressStateFromBlock block a =>
      failed (stateFetcher_GetAddressStateFromBlock ext block a)
  | ApproveContractExtension a vote args =>
      failed (extensionAPI_ApproveContractExtension ext a vote args)
  | VoteOnContract a vote args =>
      failed (extensionAPI_VoteOnContract ext a vote args)
  | MuLock | MuUnlock | MapStore _ _ | MapDelete _ | LogLine _ _ => false
  end.

(** a step of the state-share protocol: a call on a collaborator or the
    base64 decoding of the recipient key hash *)
Definition is_step (a : Action) : bool :=
  match a with Base64Decode _ => true | _ => is_external a end.

(** no step follows a step that failed *)
Fixpoint stops_at_failure (ext : Collaborators) (t : list Action) : bool :=
  match t with
  | [] => true
  | a :: rest =>
      (if answer_failed ext a then forallb (fun b => negb (is_step b)) rest
       else true)
      && stops_at_failure ext rest
  end.

(** whether the mutex is held after the actions [t] *)
Fixpoint held_after (held : bool) (t : list Action) : bool :=
  match t with
  | [] => held
  | MuLock :: rest => held_after true rest
  | MuUnlock :: rest => held_after false rest
  | _ :: rest => held_after held rest
  end.

Definition starts_with_Save (t : list Action) : bool :=
  match t with Save _ :: _ => true | _ => false end.

(** every mutation of the map happens with the mutex held and is followed
    at once, hence before the mutex is released, by a call of [Save] *)
Fixpoint mutations_saved (held : bool) (t : list Action) : bool :=
  match t with
  | [] => true
  | MuLock :: rest => mutations_saved true rest
  | MuUnlock :: rest => mutations_saved false rest
  | a :: rest =>
      (if is_mutation a then held && starts_with_Save rest else true)
      && mutations_saved held rest
  end.

(** the hash of the creation payload of a creation log *)
Definition creation_payload_hash (ext : Collaborators) (foundLog : Log.t)
    : common.EncryptedPayloadHash :=
  BytesToEncryptedPayloadHash ext
    (ExtensionContract.CreationData (newContractExtension ext foundLog)).

(** the creator the management contract at the log's address names *)
Definition resolved_creator (ext : Collaborators) (l : Log.t) : common.Address :=
  (caller_Creator ext (managementContractFacade_Caller ext (Log.Address l)).1).1.

(** collaborators whose transaction lookup and sender recovery fail *)
Definition lookups_fail : Collaborators := {|
  extClient_TransactionByHash := fun _ => ko {| Transaction.Data := [] |};
  QuorumPrivateTxSigner_Sender := fun _ => ko 0%N;
  UnpackNewExtensionCreatedLog := UnpackNewExtensionCreatedLog all_fine;
  dataHandler_Save := dataHandler_Save all_fine;
  BytesToEncryptedPayloadHash := BytesToEncryptedPayloadHash all_fine;
  ptm_IsSender := fun _ => ok false;
  ptm_GetParticipants := ptm_GetParticipants all_fine;
  ptm_Receive := ptm_Receive all_fine;
  ptm_Send := ptm_Send all_fine;
  managementContractFacade_Caller := managementContractFacade_Caller all_fine;
  managementContractFacade_Transactor :=
    managementContractFacade_Transactor all_fine;
  caller_Creator := caller_Creator all_fine;
  caller_TargetRecipientPublicKeyHash :=
    caller_TargetRecipientPublicKeyHash all_fine;
  caller_ContractToExtend := caller_ContractToExtend all_fine;
  transactor_SetSharedStateHash := transactor_SetSharedStateHash all_fine;
  accountManager_Exists := accountManager_Exists all_fine;
  accountManager_GenerateTransactOptions :=
    accountManager_GenerateTransactOptions all_fine;
  stateFetcher_GetAddressStateFromBlock :=
    stateFetcher_GetAddressStateFromBlock all_fine;
  extensionAPI_ApproveContractExtension :=
    extensionAPI_ApproveContractExtension all_fine;
  extensionAPI_VoteOnContract := extensionAPI_VoteOnContract all_fine;
  base64_DecodeString := base64_DecodeString all_fine;
  base64_EncodeToString := base64_EncodeToString all_fine
|}.

(** the actions of a creation log up to and including the call of [Save] *)
Definition insertion_actions (ext : Collaborators) (foundLog : Log.t)
    (reg : Registry) : list Action :=
  let tx := (extClient_TransactionByHash ext (Log.TxHash foundLog)).1 in
  [ MuLock;
    TransactionByHash (Log.TxHash foundLog);
    Sender tx;
    UnpackLog (Log.Data foundLog);
    MapStore (Log.Address foundLog) (newContractExtension ext foundLog);
    Save (<[Log.Address foundLog := newContractExtension ext foundLog]> reg) ].

(** [Save], called with the registry holding the new record, fails *)
Definition save_fails (ext : Collaborators) (foundLog : Log.t) (reg : Registry)
    : bool :=
  is_err (dataHandler_Save ext
            (<[Log.Address foundLog := newContractExtension ext foundLog]> reg)).

(** the self-approval vote is cast when the log decodes, [Save]
    succeeds, the transport says this node sent the creation payload and
    the participants are fetched *)
Definition votes (ext : Collaborators) (foundLog : Log.t) (reg : Registry)
    : bool :=
  decodes ext foundLog
  && negb (save_fails ext foundLog reg)
  && (ptm_IsSender ext (creation_payload_hash ext foundLog)).1
  && negb (failed (ptm_GetParticipants ext (creation_payload_hash ext foundLog))).

(** collaborators whose [ptm.Receive] fails, all else succeeding *)
Definition receive_fails : Collaborators :=
  collaborators None None true None true (Some "receive failed").

(** collaborators whose [ptm.GetParticipants] fails, the transport
    saying that this node is the sender *)
Definition participants_fail : Collaborators :=
  collaborators None None true (Some "no participants") true None.

(** collaborators whose [Save] fails *)
Definition save_fails_always : Collaborators :=
  collaborators None (Some "disk full") true None true None.

(** collaborators of a node without the creator's account *)
Definition no_account : Collaborators :=
  collaborators None None true None false None.

(** ** Further notions for the properties of the code *)

(** the address of the log an event carries *)
Definition event_address (e : Event) : common.Address :=
  match e with
  | NewExtension _ l | Finished _ l | CanPerformStateShare _ l => Log.Address l
  end.

(** every record sits at the key that is its own management contract
    address *)
Definition keyed_by_own_address (reg : Registry) : Prop :=
  map_Forall
    (fun a rec => ExtensionContract.ManagementContractAddress rec = a) reg.

(** the mutex is never locked while held (a second [Lock] would block
    for ever), never unlocked while free (a runtime panic in Go), and is
    free at the end *)
Fixpoint lock_discipline (held : bool) (t : list Action) : bool :=
  match t with
  | [] => negb held
  | MuLock :: rest => negb held && lock_discipline true rest
  | MuUnlock :: rest => held && lock_discipline false rest
  | _ :: rest => lock_discipline held rest
  end.

(** every action that satisfies [p] happens while the mutex is held
    ([want = true]) or while it is free ([want = false]) *)
Fixpoint all_while (p : Action -> bool) (want held : bool) (t : list Action)
    : bool :=
  match t with
  | [] => true
  | MuLock :: rest => all_while p want true rest
  | MuUnlock :: rest => all_while p want false rest
  | a :: rest =>
      (if p a then Bool.eqb held want else true) && all_while p want held rest
  end.

(** the calls of the insertion part of [watchForNewContracts] *)
Definition is_insertion_call (a : Action) : bool :=
  match a with
  | TransactionByHash _ | Sender _ | UnpackLog _ | MapStore _ _ | Save _ => true
  | _ => false
  end.

(** the calls of the self voting part of [watchForNewContracts] *)
Definition is_self_vote_call (a : Action) : bool :=
  match a with
  | IsSender _ | GetParticipants _ | Caller _ | Creator _
  | ApproveContractExtension _ _ _ | VoteOnContract _ _ _ => true
  | _ => false
  end.

(** the steps among the actions, in order *)
Definition steps (t : list Action) : list Action := List.filter is_step t.

(** the steps of the state share of [watchForCompletionEvents] for the
    log [l] and the registry entry [extensionEntry], each fed with what
    the steps before it returned *)
Definition state_share_steps (ext : Collaborators) (l : Log.t)
    (extensionEntry : ExtensionContract.t) : list Action :=
  let caller := (managementContractFacade_Caller ext (Log.Address l)).1 in
  let contractCreator := (caller_Creator ext caller).1 in
  let payload := BytesToEncryptedPayloadHash ext
                   (ExtensionContract.CreationData extensionEntry) in
  let fetchedParties := (ptm_GetParticipants ext payload).1 in
  let sendTxArgs := {| SendTxArgs.From := contractCreator;
                       SendTxArgs.PrivateFor := fetchedParties |} in
  let txArgs := (accountManager_GenerateTransactOptions ext sendTxArgs).1 in
  let recipientHash := (caller_TargetRecipientPublicKeyHash ext caller).1 in
  let decoded := (base64_DecodeString ext recipientHash).1 in
  let recipient := (ptm_Receive ext decoded).1 in
  let contractToExtend := (caller_ContractToExtend ext caller).1 in
  let entireStateData :=
    (stateFetcher_GetAddressStateFromBlock ext (Log.BlockHash l)
       contractToExtend).1 in
  let to := [String.string_of_list_byte recipient] in
  let hashOfStateData := (ptm_Send ext entireStateData "" to).1 in
  let hashofStateDataBase64 := base64_EncodeToString ext hashOfStateData in
  let transactor := (managementContractFacade_Transactor ext (Log.Address l)).1 in
  [ Caller (Log.Address l);
    Creator caller;
    AccountExists contractCreator;
    GetParticipants payload;
    GenerateTransactOptions sendTxArgs;
    TargetRecipientPublicKeyHash caller;
    Base64Decode recipientHash;
    Receive decoded;
    ContractToExtend caller;
    GetAddressStateFromBlock (Log.BlockHash l) contractToExtend;
    Send entireStateData "" to;
    Transactor (Log.Address l);
    SetSharedStateHash transactor txArgs hashofStateDataBase64 ].

(** the steps of [t] up to and including the first one that fails among
    those whose failure is checked *)
Fixpoint up_to_failure (checked : Action -> bool) (ext : Collaborators)
    (t : list Action) : list Action :=
  match t with
  | [] => []
  | a :: rest =>
      a :: (if checked a && answer_failed ext a then []
            else up_to_failure checked ext rest)
  end.

(** [backend.go] checks the outcome of every step *)
Definition checked_by_backend (a : Action) : bool := true.

(** [part_000] checks the account and the fetch of the participants only *)
Definition checked_by_part_000 (a : Action) : bool :=
  match a with AccountExists _ | GetParticipants _ => true | _ => false end.

(** the self-approval vote [watchForNewContracts] submits for a log *)
Definition self_vote (v : Variant) (ext : Collaborators) (foundLog : Log.t)
    : Action :=
  let data := creation_payload_hash ext foundLog in
  let fetchedParties := (ptm_GetParticipants ext data).1 in
  let mca := Log.Address foundLog in
  let caller := (managementContractFacade_Caller ext mca).1 in
  let contractCreator := (caller_Creator ext caller).1 in
  let txArgs := {| SendTxArgs.From := contractCreator;
                   SendTxArgs.PrivateFor := fetchedParties |} in
  match v with
  | backend_go => ApproveContractExtension mca true txArgs
  | part_000 => VoteOnContract mca true txArgs
  end.



(** the registry the recorded stores and deletes lead to *)
Fixpoint replay (reg : Registry) (t : list Action) : Registry :=
  match t with
  | [] => reg
  | MapStore a c :: rest => replay (<[a := c]> reg) rest
  | MapDelete a :: rest => replay (delete a reg) rest
  | _ :: rest => replay reg rest
  end.

(** every call of [Save] is handed the registry as it is at that moment *)
Fixpoint saves_current (reg : Registry) (t : list Action) : Prop :=
  match t with
  | [] => True
  | MapStore a c :: rest => saves_current (<[a := c]> reg) rest
  | MapDelete a :: rest => saves_current (delete a reg) rest
  | Save snapshot :: rest => snapshot = reg /\ saves_current reg rest
  | _ :: rest => saves_current reg rest
  end.

(** a line logged as an error or a warning *)
Definition is_problem_log (a : Action) : bool :=
  match a with
  | LogLine LvlError _ | LogLine LvlWarn _ => true
  | _ => false
  end.

(** the steps whose failure a variant checks *)
Definition checked (v : Variant) : Action -> bool :=
  match v with
  | backend_go => checked_by_backend
  | part_000 => checked_by_part_000
  end.

(** no step of [t] whose failure the variant checks has failed *)
Definition no_checked_failure (v : Variant) (ext : Collaborators)
    (t : list Action) : bool :=
  forallb (fun a => negb (checked v a && answer_failed ext a)) t.

(** ** [New] and [initialise] *)

(** [New]: the service starts from the registry [Load] returns; when
    [Load] fails there is no service and the error is wrapped. The
    result is the registry of the service, [None] for the [nil]
    service. *)
Definition New (load : result Registry) : result (option Registry) :=
  match load.2 with
  | Some err =>
      (None, Some ("could not load existing extension contracts: " +:+ err))
  | None => (Some load.1, None)
  end.

Inductive Watcher :=
  | NewContractsWatcher | CancelledContractsWatcher | CompletionEventsWatcher.

(** what [initialise] and the three [watchFor...] functions do before
    the goroutines run *)
Inductive InitAction :=
  | InitLock
  | InitUnlock
  | NodeAttach
  | NewClient
  | SubscribeToLogs (w : Watcher)
  | Go (w : Watcher)
  | InitLogError (msg : string)
  | Panic (msg : string).

(** a [watchFor...] function up to its [go] statement: it subscribes,
    and starts its goroutine only if the subscription succeeded *)
Definition watchFor_start (w : Watcher) (subscription : option error)
    : option error * list InitAction :=
  match subscription with
  | Some err => (Some err, [SubscribeToLogs w])
  | None => (None, [SubscribeToLogs w; Go w])
  end.

(** the body of the loop of [initialise] over the three functions *)
Fixpoint initialise_loop (subscriptions : Watcher -> option error)
    (fs : list Watcher) : list InitAction :=
  match fs with
  | [] => []
  | f :: rest =>
      match watchFor_start f (subscriptions f) with
      | (Some _, t) => t ++ [InitLogError ""] ++ initialise_loop subscriptions rest
      | (None, t) => t ++ initialise_loop subscriptions rest
      end
  end.

(** [initialise]: the deferred [Unlock] runs also when it panics *)
Definition initialise (attach : option error)
    (subscriptions : Watcher -> option error) : list InitAction :=
  [InitLock; NodeAttach]
  ++ match attach with
     | Some _ => [Panic "extension: could not connect to ethereum client rpc"]
     | None =>
         [NewClient]
         ++ initialise_loop subscriptions
              [NewContractsWatcher; CancelledContractsWatcher;
               CompletionEventsWatcher]
     end
  ++ [InitUnlock].

Definition is_Go (w : Watcher) (a : InitAction) : bool :=
  match a, w with
  | Go NewContractsWatcher, NewContractsWatcher
  | Go CancelledContractsWatcher, CancelledContractsWatcher
  | Go CompletionEventsWatcher, CompletionEventsWatcher => true
  | _, _ => false
  end.

Definition is_InitLogError (a : InitAction) : bool :=
  match a with InitLogError _ => true | _ => false end.

Definition failed_subscriptions (subscriptions : Watcher -> option error) : nat :=
  length (List.filter (fun w => is_err (subscriptions w))
            [NewContractsWatcher; CancelledContractsWatcher;
             CompletionEventsWatcher]).

(** ** The creation watcher on a transaction pointer

    [TransactionByHash] returns a [*types.Transaction], which is [nil]
    when the lookup finds nothing, and the creation watcher calls
    [Sender(tx)] and [tx.Data()] on it without looking at the error.
    The handlers above take the transaction as a value; the ones below
    take it as a pointer, [None] for [nil]. *)
Definition TransactionPtr := option Transaction.t.

(** [types.Transaction] and [types.QuorumPrivateTxSigner] are declared
    outside the two files. On a transaction their methods answer as
    above. What they do on the nil pointer is a parameter: [Some r] when
    the method returns [r], [None] when it dereferences the pointer and
    the Go runtime panics. *)
Record Transactions := {
  extClient_TransactionByHash_ptr : common.Hash -> result TransactionPtr;
  Sender_of_nil : option (result common.Address);
  Data_of_nil : option Bytes
}.

(** how the processing of a log ends: it runs to its end with a value,
    it leaves the log ([continue]), or the goroutine panics *)
Inductive Outcome (A : Type) :=
  | Returned (x : A)
  | Continued
  | Panicked.
Arguments Returned {A} x.
Arguments Continued {A}.
Arguments Panicked {A}.

(** the actions above, and the two method calls on the nil pointer *)
Inductive PtrAction :=
  | Plain (a : Action)
  | SenderOfNil
  | DataOfNil.

Definition MP (A : Type) : Type :=
  Registry -> Outcome A * Registry * list PtrAction.

Definition retP {A} (x : A) : MP A := fun reg => (Returned x, reg, []).

Definition bindP {A B} (m : MP A) (k : A -> MP B) : MP B := fun reg =>
  match m reg with
  | (Returned x, reg1, t1) =>
      match k x reg1 with (y, reg2, t2) => (y, reg2, t1 ++ t2) end
  | (Continued, reg1, t1) => (Continued, reg1, t1)
  | (Panicked, reg1, t1) => (Panicked, reg1, t1)
  end.

Notation "'let!' x ':=' m 'in' k" := (bindP m (fun x => k))
  (at level 10, x name, m at level 100, k at level 200).
Notation "m ';;;' k" := (bindP m (fun _ => k))
  (at level 100, k at level 200, right associativity).

(** a handler that cannot panic *)
Definition lift {A} (m : M A) : MP A := fun reg =>
  match m reg with
  | (Some x, reg1, t) => (Returned x, reg1, map Plain t)
  | (None, reg1, t) => (Continued, reg1, map Plain t)
  end.

(** a method call on the nil pointer: it returns, or the runtime panics *)
Definition on_nil {A} (a : PtrAction) (behaviour : option A) : MP A :=
  fun reg =>
    match behaviour with
    | Some x => (Returned x, reg, [a])
    | None => (Panicked, reg, [a])
    end.

(** [types.QuorumPrivateTxSigner{}.Sender(tx)] *)
Definition Sender_ptr (txs : Transactions) (ext : Collaborators)
    (tx : TransactionPtr) : MP (result common.Address) :=
  match tx with
  | Some t => lift (call (Sender t) (QuorumPrivateTxSigner_Sender ext t))
  | None => on_nil SenderOfNil (Sender_of_nil txs)
  end.

(** [tx.Data()] *)
Definition Data_ptr (txs : Transactions) (tx : TransactionPtr) : MP Bytes :=
  match tx with
  | Some t => retP (Transaction.Data t)
  | None => on_nil DataOfNil (Data_of_nil txs)
  end.

Module Backend_ptr.

(** [case foundLog := <-incomingLogs] of [watchForNewContracts] in
    [backend.go], the transaction being a pointer *)
Definition watchForNewContracts_case_log
    (txs : Transactions) (ext : Collaborators) (foundLog : Log.t) : MP unit :=
  lift (emit MuLock) ;;;
  let! tx_ := lift (call (TransactionByHash (Log.TxHash foundLog))
                         (extClient_TransactionByHash_ptr txs
                            (Log.TxHash foundLog))) in
  let tx := tx_.1 in
  let! from_ := Sender_ptr txs ext tx in
  let from := from_.1 in
  let! unpacked := lift (call (UnpackLog (Log.Data foundLog))
                              (UnpackNewExtensionCreatedLog ext
                                 (Log.Data foundLog))) in
  let newExtensionEvent := unpacked.1 in
  lift (when (failed unpacked)
          (log_Error "Error unpacking extension creation log" ;;
           log_Debug "Errored log" ;;
           emit MuUnlock ;;
           leave)) ;;;
  let! data_ := Data_ptr txs tx in
  let newContractExtension := {|
    ExtensionContract.Address := NewExtensionCreated.ToExtend newExtensionEvent;
    ExtensionContract.Initiator := from;
    ExtensionContract.ManagementContractAddress := Log.Address foundLog;
    ExtensionContract.CreationData := data_
  |} in
  lift
    (store (Log.Address foundLog) newContractExtension ;;
     let* currentContracts := getContracts in
     let* err := call (Save currentContracts)
                      (dataHandler_Save ext currentContracts) in
     when (is_err err)
       (log_Error "Error writing extension data to file" ;;
        emit MuUnlock ;;
        leave) ;;
     emit MuUnlock ;;
     (* if party is sender then complete self voting *)
     let data := BytesToEncryptedPayloadHash ext
                   (ExtensionContract.CreationData newContractExtension) in
     let* isSender_ := call (IsSender data) (ptm_IsSender ext data) in
     let isSender := isSender_.1 in
     when isSender
       (let* fetched := call (GetParticipants data)
                             (ptm_GetParticipants ext data) in
        let fetchedParties := fetched.1 in
        when (failed fetched)
          (log_Error "Extension: unable to fetch all parties for extension management contract" ;;
           leave) ;;
        let mca :=
          ExtensionContract.ManagementContractAddress newContractExtension in
        let* caller_ := call (Caller mca)
                             (managementContractFacade_Caller ext mca) in
        let caller := caller_.1 in
        let* creator_ := call (Creator caller) (caller_Creator ext caller) in
        let contractCreator := creator_.1 in
        let txArgs := {| SendTxArgs.From := contractCreator;
                         SendTxArgs.PrivateFor := fetchedParties |} in
        let* voted := call (ApproveContractExtension mca true txArgs)
                           (extensionAPI_ApproveContractExtension ext mca true
                              txArgs) in
        when (failed voted)
          (log_Error "Extension: initiator vote on management contract failed"))).

End Backend_ptr.

Module Part000_ptr.

(** [case foundLog := <-incomingLogs] of [watchForNewContracts] in
    [part_000], the transaction being a pointer *)
Definition watchForNewContracts_case_log
    (txs : Transactions) (ext : Collaborators) (foundLog : Log.t) : MP unit :=
  lift (emit MuLock) ;;;
  let! tx_ := lift (call (TransactionByHash (Log.TxHash foundLog))
                         (extClient_TransactionByHash_ptr txs
                            (Log.TxHash foundLog))) in
  let tx := tx_.1 in
  let! from_ := Sender_ptr txs ext tx in
  let from := from_.1 in
  let! unpacked := lift (call (UnpackLog (Log.Data foundLog))
                              (UnpackNewExtensionCreatedLog ext
                                 (Log.Data foundLog))) in
  let newExtensionEvent := unpacked.1 in
  lift (when (failed unpacked)
          (log_Error "Error unpacking extension creation log" ;;
           log_Debug "Errored log" ;;
           emit MuUnlock ;;
           leave)) ;;;
  let! data_ := Data_ptr txs tx in
  let newContractExtension := {|
    ExtensionContract.Address := NewExtensionCreated.ToExtend newExtensionEvent;
    ExtensionContract.Initiator := from;
    ExtensionContract.ManagementContractAddress := Log.Address foundLog;
    ExtensionContract.CreationData := data_
  |} in
  lift
    (store (Log.Address foundLog) newContractExtension ;;
     let* currentContracts := getContracts in
     let* err := call (Save currentContracts)
                      (dataHandler_Save ext currentContracts) in
     when (is_err err)
       (log_Error "Error writing extension data to file" ;;
        emit MuUnlock ;;
        leave) ;;
     emit MuUnlock ;;
     (* if party is sender then complete self voting *)
     let data := BytesToEncryptedPayloadHash ext
                   (ExtensionContract.CreationData newContractExtension) in
     let* isSender_ := call (IsSender data) (ptm_IsSender ext data) in
     let isSender := isSender_.1 in
     when isSender
       (let* fetched := call (GetParticipants data)
                             (ptm_GetParticipants ext data) in
        let fetchedParties := fetched.1 in
        when (failed fetched)
          (log_Error "Extension" ;;
           leave) ;;
        let mca :=
          ExtensionContract.ManagementContractAddress newContractExtension in
        let* caller_ := call (Caller mca)
                             (managementContractFacade_Caller ext mca) in
        let caller := caller_.1 in
        let* creator_ := call (Creator caller) (caller_Creator ext caller) in
        let contractCreator := creator_.1 in
        let txArgs := {| SendTxArgs.From := contractCreator;
                         SendTxArgs.PrivateFor := fetchedParties |} in
        let* voted := call (VoteOnContract mca true txArgs)
                           (extensionAPI_VoteOnContract ext mca true txArgs) in
        when (failed voted)
          (log_Error "Extension"))).

End Part000_ptr.

Definition watchForNewContracts_case_log_ptr (v : Variant) :=
  match v with
  | backend_go => Backend_ptr.watchForNewContracts_case_log
  | part_000 => Part000_ptr.watchForNewContracts_case_log
  end.

(** what [Sender(tx)] and [tx.Data()] do on the pointer the lookup of
    the log's transaction returned: [None] for a panic *)
Definition sender_on_lookup (txs : Transactions) (ext : Collaborators)
    (foundLog : Log.t) : option (result common.Address) :=
  match (extClient_TransactionByHash_ptr txs (Log.TxHash foundLog)).1 with
  | Some t => Some (QuorumPrivateTxSigner_Sender ext t)
  | None => Sender_of_nil txs
  end.

Definition data_on_lookup (txs : Transactions) (foundLog : Log.t)
    : option Bytes :=
  match (extClient_TransactionByHash_ptr txs (Log.TxHash foundLog)).1 with
  | Some t => Some (Transaction.Data t)
  | None => Data_of_nil txs
  end.

Definition has_panicked {A} (o : Outcome A) : bool :=
  match o with Panicked => true | _ => false end.

(** whether the mutex is held after the actions [t] of a handler on a
    pointer *)
Fixpoint held_after_ptr (held : bool) (t : list PtrAction) : bool :=
  match t with
  | [] => held
  | Plain MuLock :: rest => held_after_ptr true rest
  | Plain MuUnlock :: rest => held_after_ptr false rest
  | _ :: rest => held_after_ptr held rest
  end.

(** a lookup that finds nothing: the nil pointer and an error *)
Definition not_found (h : common.Hash) : result TransactionPtr :=
  (None, Some "not found").

(** the lookup finds nothing and the two methods dereference the nil
    pointer *)
Definition nil_dereferenced : Transactions := {|
  extClient_TransactionByHash_ptr := not_found;
  Sender_of_nil := None;
  Data_of_nil := None
|}.

(** the lookup finds nothing and the two methods return on the nil
    pointer: the zero address with an error, and no bytes *)
Definition nil_tolerated : Transactions := {|
  extClient_TransactionByHash_ptr := not_found;
  Sender_of_nil := Some (0%N, Some "invalid transaction");
  Data_of_nil := Some []
|}.

(** the lookup succeeds *)
Definition transaction_found : Transactions := {|
  extClient_TransactionByHash_ptr :=
    fun _ => ok (Some {| Transaction.Data := [x01; x02] |});
  Sender_of_nil := None;
  Data_of_nil := None
|}.

(** ** Proof steps shared by the handlers *)

Ltac unfold_handlers :=
  unfold registry_of, actions_of,
    watchForNewContracts_case_log, watchForCancelledContracts_case_log,
    watchForCompletionEvents_case_log,
    Backend.watchForNewContracts_case_log, Part000.watchForNewContracts_case_log,
    Backend.watchForCancelledContracts_case_log,
    Part000.watchForCancelledContracts_case_log,
    Backend.watchForCompletionEvents_case_log,
    Part000.watchForCompletionEvents_case_log,
    deferring, when, log_Error, log_Warn, log_Debug, call, store, remove,
    getContracts, leave, emit, bind, ret.

(** split on every answer a handler branches on *)
Ltac branches :=
  repeat (cbn [fst snd] in *;
          match goal with
          | |- context [if ?b then _ else _] => destruct b eqn:?
          | |- context [match ?o with Some _ => _ | None => _ end] =>
              destruct o eqn:?
          end).

Section Registry_effect.

Context (ext : Collaborators) (l : Log.t) (reg : Registry).

Lemma new_contracts_registry v :
  registry_of (watchForNewContracts_case_log v ext l reg)
  = effect (NewExtension ext l) reg.
Proof.
  destruct v; unfold_handlers; unfold effect, decodes, newContractExtension;
    branches; done.
Qed.

Lemma cancelled_contracts_registry v :
  registry_of (watchForCancelledContracts_case_log v ext l reg)
  = effect (Finished ext l) reg.
Proof.
  destruct v; unfold_handlers; unfold effect; cbn.
  all: case_bool_decide as Hin; cbn; branches; try done.
  all: symmetry; apply delete_id; by apply eq_None_not_Some.
Qed.

Lemma completion_events_registry v :
  registry_of (watchForCompletionEvents_case_log v ext l reg)
  = effect (CanPerformStateShare ext l) reg.
Proof.
  destruct v; unfold_handlers; unfold effect; cbn; branches; done.
Qed.

End Registry_effect.

Lemma process_registry v e reg :
  registry_of (process v e reg) = effect e reg.
Proof.
  destruct e; cbn [process].
  - apply new_contracts_registry.
  - apply cancelled_contracts_registry.
  - apply completion_events_registry.
Qed.

Lemma run_cons v e rest reg :
  (run v (e :: rest) reg).1 = (run v rest (effect e reg)).1.
Proof.
  cbn [run]. rewrite <- (process_registry v e reg). unfold registry_of.
  destruct (process v e reg) as [[o reg1] t1]; cbn.
  by destruct (run v rest reg1).
Qed.

Lemma run_registry v events reg :
  (run v events reg).1 = foldl (fun r e => effect e r) reg events.
Proof.
  revert reg; induction events as [|e rest IH]; intros reg; [done|].
  rewrite run_cons, IH. done.
Qed.

Lemma effect_lookup a e reg :
  is_Some (effect e reg !! a) <->
  creates a e = true \/ (cancels a e = false /\ is_Some (reg !! a)).
Proof.
  destruct e as [ext l|ext l|ext l]; cbn [effect creates cancels].
  - destruct (decodes ext l); rewrite ?andb_true_r, ?andb_false_r.
    + case_bool_decide as Ha.
      * subst a. rewrite lookup_insert_eq. split; [by left|by eexists].
      * rewrite lookup_insert_ne by done. intuition discriminate.
    + intuition discriminate.
  - case_bool_decide as Ha.
    + subst a. rewrite lookup_delete_eq.
      split; [intros [? [=]]|intuition discriminate].
    + rewrite lookup_delete_ne by done. intuition discriminate.
  - intuition discriminate.
Qed.

Lemma creates_not_cancels a e : creates a e = true -> cancels a e = false.
Proof. by destruct e. Qed.

Lemma registry_after_run v a events reg :
  is_Some ((run v events reg).1 !! a) <->
  created_not_cancelled a events \/
  (is_Some (reg !! a) /\ Forall (fun e' => cancels a e' = false) events).
Proof.
  revert reg; induction events as [|e rest IH]; intros reg.
  - cbn. split.
    + intros H; right; by split.
    + intros [(before & e & after & Heq & _)|[H _]]; [|done].
      by destruct before.
  - rewrite run_cons, IH, effect_lookup. unfold created_not_cancelled. split.
    + intros [(before & e' & after & -> & Hc & Hn)
             |[[Hc|[Hc Hr]] Hn]].
      * left. by exists (e :: before), e', after.
      * left. by exists [], e, rest.
      * right. split; [done|]. by constructor.
    + intros [(before & e' & after & Heq & Hc & Hn)|[Hr Hn]].
      * destruct before as [|e0 before]; simplify_eq/=.
        -- right. split; [by left|done].
        -- left. by exists before, e', after.
      * apply Forall_cons in Hn as [Hc Hn]. right. split; [|done].
        right. by split.
Qed.

(** ** The actions of one completion log *)

Section Completion.

Context (v : Variant) (ext : Collaborators) (l : Log.t) (reg : Registry).

Lemma completion_actions_no_mutation :
  count is_mutation (actions_of (watchForCompletionEvents_case_log v ext l reg)) = 0
  /\ count is_Save (actions_of (watchForCompletionEvents_case_log v ext l reg)) = 0.
Proof.
  destruct v; unfold_handlers; cbn; branches; done.
Qed.

Lemma completion_unknown_address :
  reg !! Log.Address l = None ->
  count is_external (actions_of (watchForCompletionEvents_case_log v ext l reg)) = 0.
Proof.
  intros Hnone. destruct v; unfold_handlers; cbn; rewrite Hnone; done.
Qed.

Lemma completion_without_account :
  accountManager_Exists ext (resolved_creator ext l) = false ->
  count is_Send (actions_of (watchForCompletionEvents_case_log v ext l reg)) = 0
  /\ count is_SetSharedStateHash
       (actions_of (watchForCompletionEvents_case_log v ext l reg)) = 0.
Proof.
  unfold resolved_creator. intros Hno.
  destruct v; unfold_handlers; cbn; rewrite ?Hno; branches; done.
Qed.

End Completion.


(** name the actions of the handler in the goal, so that the case
    analysis on the handler leaves the property of the actions alone *)
Ltac name_actions :=
  match goal with
  | |- context [actions_of ?r] =>
      let t := fresh "t" in
      let Ht := fresh "Ht" in
      remember (actions_of r) as t eqn:Ht in |- *; revert Ht
  end.

Ltac use_answers :=
  repeat match goal with
         | H : negb _ = true |- _ => rewrite negb_true_iff in H
         | H : negb _ = false |- _ => rewrite negb_false_iff in H
         end;
  repeat match goal with
         | H : failed _ = _ |- _ => rewrite H; clear H
         | H : is_err _ = _ |- _ => rewrite H; clear H
         | H : accountManager_Exists _ _ = _ |- _ => rewrite H; clear H
         end.

(** [backend.go] leaves the log at the first step that fails *)
Lemma backend_completion_stops_at_failure ext l reg :
  stops_at_failure ext
    (actions_of (Backend.watchForCompletionEvents_case_log ext l reg)) = true.
Proof.
  name_actions. unfold_handlers. cbn. branches.
  all: intros ->.
  all: cbn [stops_at_failure answer_failed forallb is_step is_external negb
            andb app fst snd].
  all: use_answers; done.
Qed.

(** ** Mutations and [Save] *)

Lemma starts_with_Save_app t1 t2 :
  starts_with_Save t1 = true -> starts_with_Save (t1 ++ t2) = true.
Proof. by destruct t1 as [|[] ?]. Qed.

Lemma mutations_saved_app t1 t2 held :
  mutations_saved held t1 = true ->
  mutations_saved (held_after held t1) t2 = true ->
  mutations_saved held (t1 ++ t2) = true.
Proof.
  revert held; induction t1 as [|a t1 IH]; intros held H1 H2; [done|].
  destruct a; cbn in *; try (by apply IH).
  all: apply andb_true_iff in H1 as [H1 H1'].
  all: apply andb_true_iff in H1 as [-> H1].
  all: rewrite (starts_with_Save_app _ _ H1); by apply IH.
Qed.

Lemma held_after_app t1 t2 held :
  held_after held (t1 ++ t2) = held_after (held_after held t1) t2.
Proof.
  revert held; induction t1 as [|a t1 IH]; intros held; [done|].
  destruct a; cbn; apply IH.
Qed.

Lemma process_mutations_saved v e reg :
  mutations_saved false (actions_of (process v e reg)) = true
  /\ held_after false (actions_of (process v e reg)) = false.
Proof.
  destruct e as [ext l|ext l|ext l]; cbn [process].
  all: name_actions; destruct v; unfold_handlers; cbn.
  all: try case_bool_decide; cbn.
  all: branches; intros ->; done.
Qed.

Lemma run_mutations_saved v events reg :
  mutations_saved false (run v events reg).2 = true
  /\ held_after false (run v events reg).2 = false.
Proof.
  revert reg; induction events as [|e rest IH]; intros reg; [done|].
  cbn [run]. destruct (process_mutations_saved v e reg) as [Hs Hh].
  unfold actions_of in *.
  destruct (process v e reg) as [[o reg1] t1]; cbn [snd] in *.
  destruct (IH reg1) as [Hs' Hh'].
  destruct (run v rest reg1) as [reg2 t2]; cbn [snd] in *.
  split.
  - apply mutations_saved_app; [done|]. by rewrite Hh.
  - by rewrite held_after_app, Hh.
Qed.

(** ** The actions of one creation log *)

Section Creation.

Context (v : Variant) (ext : Collaborators) (foundLog : Log.t) (reg : Registry).

Lemma creation_actions_save_failed :
  decodes ext foundLog = true ->
  save_fails ext foundLog reg = true ->
  actions_of (watchForNewContracts_case_log v ext foundLog reg)
  = insertion_actions ext foundLog reg
    ++ [LogLine LvlError "Error writing extension data to file"; MuUnlock].
Proof.
  unfold decodes, save_fails, insertion_actions, newContractExtension.
  intros Hdec Hsave.
  destruct v; unfold_handlers; cbn.
  all: apply negb_true_iff in Hdec; rewrite Hdec; cbn.
  all: rewrite Hsave; done.
Qed.

Lemma creation_vote_count :
  count is_vote (actions_of (watchForNewContracts_case_log v ext foundLog reg))
  = if votes ext foundLog reg then 1 else 0.
Proof.
  unfold votes, decodes, save_fails, creation_payload_hash, newContractExtension.
  name_actions. destruct v; unfold_handlers; cbn.
  all: branches; intros ->; use_answers.
  all: cbn [negb andb]; rewrite ?andb_false_r; done.
Qed.

End Creation.

(** ** The loops go on after a log *)

Lemma for_select_log body ext l rest reg reg1 t1 :
  body (IncomingLog ext l) reg = (NextIteration, reg1, t1) ->
  for_select body (IncomingLog ext l :: rest) reg
  = ((for_select body rest reg1).1, t1 ++ (for_select body rest reg1).2).
Proof.
  intros Hbody. cbn [for_select]. rewrite Hbody.
  by destruct (for_select body rest reg1).
Qed.

Lemma new_contracts_select_log v ext l reg :
  watchForNewContracts_select (watchForNewContracts_case_log v) (IncomingLog ext l) reg
  = (NextIteration,
     registry_of (watchForNewContracts_case_log v ext l reg),
     actions_of (watchForNewContracts_case_log v ext l reg)).
Proof.
  cbn [watchForNewContracts_select]. unfold handle_log, registry_of, actions_of.
  by destruct (watchForNewContracts_case_log v ext l reg) as [[? ?] ?].
Qed.

Lemma completion_events_select_log v ext l reg :
  watchForCompletionEvents_select (watchForCompletionEvents_case_log v)
    (IncomingLog ext l) reg
  = (NextIteration,
     registry_of (watchForCompletionEvents_case_log v ext l reg),
     actions_of (watchForCompletionEvents_case_log v ext l reg)).
Proof.
  cbn [watchForCompletionEvents_select]. unfold handle_log, registry_of, actions_of.
  by destruct (watchForCompletionEvents_case_log v ext l reg) as [[? ?] ?].
Qed.

(** in [backend.go] the completion watcher leaves a log at its first
    failed step and goes on with the next one *)
Lemma backend_completion_loop_goes_on ext l rest reg :
  stops_at_failure ext
    (actions_of (Backend.watchForCompletionEvents_case_log ext l reg)) = true
  /\ watchForCompletionEvents Backend.watchForCompletionEvents_case_log
       (IncomingLog ext l :: rest) reg
     = ((watchForCompletionEvents Backend.watchForCompletionEvents_case_log
           rest reg).1,
        actions_of (Backend.watchForCompletionEvents_case_log ext l reg)
        ++ (watchForCompletionEvents Backend.watchForCompletionEvents_case_log
              rest reg).2).
Proof.
  split; [apply backend_completion_stops_at_failure|].
  pose proof (completion_events_select_log backend_go ext l reg) as Hsel.
  rewrite (completion_events_registry ext l reg backend_go) in Hsel.
  apply for_select_log, Hsel.
Qed.

(** ** Scenarios *)

(** a "created" log whose payload decodes to target [0xAA] and whose
    sender is [0xBB] *)
Example scenario_created :
  registry_of (Backend.watchForNewContracts_case_log all_fine (log_at 204%N) ∅)
    !! 204%N
  = Some (record_at 204%N).
Proof. reflexivity. Qed.

(** a "cancelled" log removes the record and saves the registry without it *)
Example scenario_cancelled :
  Backend.watchForCancelledContracts_case_log all_fine (log_at 204%N)
    {[ 204%N := record_at 204%N ]}
  = (Some tt, ∅, [MuLock; MapDelete 204%N; Save ∅; MuUnlock]).
Proof. reflexivity. Qed.

(** a cancellation of an address that is not in the registry does nothing *)
Example scenario_cancel_unknown :
  Part000.watchForCancelledContracts_case_log all_fine (log_at 204%N) ∅
  = (Some tt, ∅, [MuLock; MuUnlock]).
Proof. reflexivity. Qed.

(** the same "created" log twice leaves the registry as once *)
Example scenario_replay :
  (run backend_go [NewExtension all_fine (log_at 204%N);
                   NewExtension all_fine (log_at 204%N)] ∅).1
  = (run backend_go [NewExtension all_fine (log_at 204%N)] ∅).1.
Proof. reflexivity. Qed.

(** the checker of mutations refuses a mutation without [Save], and one
    without the mutex *)
Example mutation_without_save :
  mutations_saved false [MuLock; MapDelete 204%N; MuUnlock] = false.
Proof. reflexivity. Qed.

Example mutation_without_lock :
  mutations_saved false [MapDelete 204%N; Save ∅] = false.
Proof. reflexivity. Qed.

(** a failed lookup and a failed sender recovery leave their zero values
    in the record *)
Example scenario_lookups_fail :
  registry_of (Backend.watchForNewContracts_case_log lookups_fail (log_at 204%N) ∅)
    !! 204%N
  = Some {| ExtensionContract.Address := 170%N;
            ExtensionContract.Initiator := 0%N;
            ExtensionContract.ManagementContractAddress := 204%N;
            ExtensionContract.CreationData := [] |}.
Proof. reflexivity. Qed.

(** ** The properties of the specification *)

(** C1: for every sequence of processed logs, starting from a registry
    without a record at address [a], the registry holds a record at [a]
    exactly when a creation log for [a] whose payload decoded has been
    processed and no cancellation log for [a] has been processed since. *)
Theorem registry_tracks_open_proposals v a events (reg : Registry) :
  reg !! a = None ->
  is_Some ((run v events reg).1 !! a) <-> created_not_cancelled a events.
Proof.
  intros Hnone. rewrite registry_after_run. split; [|by left].
  intros [H|[[rec Hrec] _]]; [done|]. by rewrite Hnone in Hrec.
Qed.

Lemma registry_tracks_open_proposals_witness :
  (∅ : Registry) !! 204%N = None
  /\ (is_Some ((run part_000 [NewExtension all_fine (log_at 204%N);
                               Finished all_fine (log_at 204%N);
                               NewExtension all_fine (log_at 204%N)] ∅).1 !! 204%N)
      <-> created_not_cancelled 204%N
            [NewExtension all_fine (log_at 204%N);
             Finished all_fine (log_at 204%N);
             NewExtension all_fine (log_at 204%N)]).
Proof.
  split; [reflexivity|].
  apply (registry_tracks_open_proposals part_000 204%N). reflexivity.
Defined.

(** C2: processing a completion log never mutates the registry: in both
    variants, whatever the collaborators answer, the registry is the same
    after as before, no map store, map delete or [Save] is among the
    actions, and the record at the log's address is still the one that
    was there. *)
Theorem completion_never_mutates_registry v ext l (reg : Registry) :
  registry_of (watchForCompletionEvents_case_log v ext l reg) = reg
  /\ count is_mutation
       (actions_of (watchForCompletionEvents_case_log v ext l reg)) = 0
  /\ count is_Save
       (actions_of (watchForCompletionEvents_case_log v ext l reg)) = 0
  /\ registry_of (watchForCompletionEvents_case_log v ext l reg) !! Log.Address l
     = reg !! Log.Address l.
Proof.
  pose proof (completion_events_registry ext l reg v) as Hreg.
  cbn [effect] in Hreg.
  destruct (completion_actions_no_mutation v ext l reg) as [Hm Hs].
  rewrite Hreg. done.
Qed.

(** C3: in [part_000] a failed step does not end the processing of the
    completion log. With a record at the log's address and [ptm.Receive]
    failing, the handler still fetches the state, calls [Send] and
    [SetSharedStateHash]; [backend.go] stops after [Receive] on the same
    input. *)
Theorem part_000_goes_on_after_failed_receive :
  answer_failed receive_fails (Receive [x6b; x65; x79]) = true
  /\ actions_of (Part000.watchForCompletionEvents_case_log receive_fails
                   (log_at 204%N) {[ 204%N := record_at 204%N ]})
     = [ MuLock; Caller 204%N; Creator 204%N; AccountExists 187%N;
         GetParticipants 2%N;
         GenerateTransactOptions
           {| SendTxArgs.From := 187%N;
              SendTxArgs.PrivateFor := ["party1"; "party2"] |};
         TargetRecipientPublicKeyHash 204%N; Base64Decode "a2V5";
         Receive [x6b; x65; x79];
         ContractToExtend 204%N; GetAddressStateFromBlock 12%N 170%N;
         Send [x09] "" ["A"]; Transactor 204%N;
         SetSharedStateHash 204%N 1%N "Bw=="; MuUnlock ]
  /\ stops_at_failure receive_fails
       (actions_of (Part000.watchForCompletionEvents_case_log receive_fails
                      (log_at 204%N) {[ 204%N := record_at 204%N ]})) = false
  /\ stops_at_failure receive_fails
       (actions_of (Backend.watchForCompletionEvents_case_log receive_fails
                      (log_at 204%N) {[ 204%N := record_at 204%N ]})) = true.
Proof. repeat split; reflexivity. Qed.

(** C4: for a completion log whose address has a record, if the account
    manager does not know the creator the management contract names, the
    handler calls neither [Send] nor [SetSharedStateHash]. *)
Theorem no_state_share_without_account v ext l (reg : Registry) rec :
  reg !! Log.Address l = Some rec ->
  accountManager_Exists ext (resolved_creator ext l) = false ->
  count is_Send
    (actions_of (watchForCompletionEvents_case_log v ext l reg)) = 0
  /\ count is_SetSharedStateHash
       (actions_of (watchForCompletionEvents_case_log v ext l reg)) = 0.
Proof.
  intros _ Hno. by apply completion_without_account.
Qed.

Lemma no_state_share_without_account_witness :
  ({[ 204%N := record_at 204%N ]} : Registry) !! Log.Address (log_at 204%N)
    = Some (record_at 204%N)
  /\ accountManager_Exists no_account (resolved_creator no_account (log_at 204%N))
     = false
  /\ count is_Send
       (actions_of (watchForCompletionEvents_case_log part_000 no_account
                      (log_at 204%N) {[ 204%N := record_at 204%N ]})) = 0
  /\ count is_SetSharedStateHash
       (actions_of (watchForCompletionEvents_case_log part_000 no_account
                      (log_at 204%N) {[ 204%N := record_at 204%N ]})) = 0.
Proof.
  split; [reflexivity|]. split; [reflexivity|].
  apply (no_state_share_without_account part_000 no_account (log_at 204%N)
           {[ 204%N := record_at 204%N ]} (record_at 204%N));
    reflexivity.
Defined.

(** C5, as the code has it: for every creation log, the self-approval
    vote is submitted exactly once when the payload decodes, [Save]
    succeeds, the transport's is-sender query returns true for the
    creation payload hash and the fetch of the participants succeeds; it
    is never submitted otherwise, so never when the query returns
    false. *)
Theorem self_approval_count v ext l (reg : Registry) :
  count is_vote (actions_of (watchForNewContracts_case_log v ext l reg))
  = if decodes ext l
       && negb (save_fails ext l reg)
       && (ptm_IsSender ext (creation_payload_hash ext l)).1
       && negb (failed (ptm_GetParticipants ext (creation_payload_hash ext l)))
    then 1 else 0.
Proof. apply creation_vote_count. Qed.

(** C5 as stated fails: the log decodes and is processed, the is-sender
    query returns true, and no vote is submitted, because the fetch of
    the participants failed. *)
Lemma self_approval_not_by_is_sender_alone :
  decodes participants_fail (log_at 204%N) = true
  /\ (ptm_IsSender participants_fail
        (creation_payload_hash participants_fail (log_at 204%N))).1 = true
  /\ registry_of (Backend.watchForNewContracts_case_log participants_fail
                    (log_at 204%N) ∅) !! 204%N = Some (record_at 204%N)
  /\ count is_vote
       (actions_of (Backend.watchForNewContracts_case_log participants_fail
                      (log_at 204%N) ∅)) = 0.
Proof. repeat split; reflexivity. Qed.

(** C6: for a completion log whose address has no record in the
    registry, the handler calls no collaborator at all, and leaves the
    registry as it was. *)
Theorem completion_of_unknown_address_calls_nothing v ext l (reg : Registry) :
  reg !! Log.Address l = None ->
  count is_external
    (actions_of (watchForCompletionEvents_case_log v ext l reg)) = 0
  /\ registry_of (watchForCompletionEvents_case_log v ext l reg) = reg.
Proof.
  intros Hnone. split.
  - by apply completion_unknown_address.
  - apply (completion_events_registry ext l reg v).
Qed.

Lemma completion_of_unknown_address_calls_nothing_witness :
  (∅ : Registry) !! Log.Address (log_at 204%N) = None
  /\ count is_external
       (actions_of (watchForCompletionEvents_case_log backend_go all_fine
                      (log_at 204%N) ∅)) = 0
  /\ registry_of (watchForCompletionEvents_case_log backend_go all_fine
                    (log_at 204%N) ∅) = ∅.
Proof.
  split; [reflexivity|].
  apply (completion_of_unknown_address_calls_nothing backend_go all_fine
           (log_at 204%N) ∅).
  reflexivity.
Defined.

(** C7: in every run of either variant, every mutation of the registry
    (the store of a creation, the delete of a cancellation) happens with
    the mutex held and is followed at once by a call of [Save], before
    the mutex is released. *)
Theorem every_mutation_is_saved_under_lock v events (reg : Registry) :
  mutations_saved false (run v events reg).2 = true.
Proof. apply run_mutations_saved. Qed.

(** C8: if [Save] fails after the insertion of a creation log, the
    record stays in the registry, the handler does nothing more for that
    log than log the error and release the mutex, and the loop goes on
    with the logs that follow, from the registry holding the record. *)
Theorem save_failure_keeps_insertion v ext l (reg : Registry) rest :
  decodes ext l = true ->
  save_fails ext l reg = true ->
  registry_of (watchForNewContracts_case_log v ext l reg)
  = <[Log.Address l := newContractExtension ext l]> reg
  /\ actions_of (watchForNewContracts_case_log v ext l reg)
     = insertion_actions ext l reg
       ++ [LogLine LvlError "Error writing extension data to file"; MuUnlock]
  /\ watchForNewContracts (watchForNewContracts_case_log v)
       (IncomingLog ext l :: rest) reg
     = ((watchForNewContracts (watchForNewContracts_case_log v) rest
           (<[Log.Address l := newContractExtension ext l]> reg)).1,
        (insertion_actions ext l reg
         ++ [LogLine LvlError "Error writing extension data to file"; MuUnlock])
        ++ (watchForNewContracts (watchForNewContracts_case_log v) rest
              (<[Log.Address l := newContractExtension ext l]> reg)).2).
Proof.
  intros Hdec Hsave.
  pose proof (new_contracts_registry ext l reg v) as Hreg.
  cbn [effect] in Hreg. rewrite Hdec in Hreg.
  pose proof (creation_actions_save_failed v ext l reg Hdec Hsave) as Hact.
  split; [done|]. split; [done|].
  rewrite <- Hreg, <- Hact.
  apply for_select_log, new_contracts_select_log.
Qed.

Lemma save_failure_keeps_insertion_witness :
  decodes save_fails_always (log_at 204%N) = true
  /\ save_fails save_fails_always (log_at 204%N) ∅ = true
  /\ registry_of (watchForNewContracts_case_log backend_go save_fails_always
                    (log_at 204%N) ∅)
     = <[Log.Address (log_at 204%N)
           := newContractExtension save_fails_always (log_at 204%N)]> ∅
  /\ actions_of (watchForNewContracts_case_log backend_go save_fails_always
                   (log_at 204%N) ∅)
     = insertion_actions save_fails_always (log_at 204%N) ∅
       ++ [LogLine LvlError "Error writing extension data to file"; MuUnlock]
  /\ (watchForNewContracts (watchForNewContracts_case_log backend_go)
        [IncomingLog save_fails_always (log_at 204%N);
         IncomingLog all_fine (log_at 205%N)] ∅).1
     = {[ 204%N := record_at 204%N; 205%N := record_at 205%N ]}.
Proof.
  split; [reflexivity|]. split; [reflexivity|].
  destruct (save_failure_keeps_insertion backend_go save_fails_always
              (log_at 204%N) ∅ [IncomingLog all_fine (log_at 205%N)])
    as (Hreg & Hact & Hloop); [reflexivity|reflexivity|].
  split; [exact Hreg|]. split; [exact Hact|].
  rewrite Hloop. vm_compute. reflexivity.
Defined.

(** When the lookup returns a transaction, with or without an error,
    whether a record is inserted depends only on whether the payload
    decodes. When it does, the record is inserted at the log's address,
    its initiator and creation data being whatever the transaction
    lookup and the sender recovery returned, their errors dropped; when
    it does not, the registry is unchanged. The lookup that returns the
    nil pointer is the matter of [creation_on_pointer]. *)
Theorem insertion_depends_only_on_decoding v ext l (reg : Registry) :
  registry_of (watchForNewContracts_case_log v ext l reg)
  = if negb (failed (UnpackNewExtensionCreatedLog ext (Log.Data l)))
    then <[Log.Address l := {|
             ExtensionContract.Address :=
               NewExtensionCreated.ToExtend
                 (UnpackNewExtensionCreatedLog ext (Log.Data l)).1;
             ExtensionContract.Initiator :=
               (QuorumPrivateTxSigner_Sender ext
                  (extClient_TransactionByHash ext (Log.TxHash l)).1).1;
             ExtensionContract.ManagementContractAddress := Log.Address l;
             ExtensionContract.CreationData :=
               Transaction.Data (extClient_TransactionByHash ext (Log.TxHash l)).1
           |}]> reg
    else reg.
Proof. apply (new_contracts_registry ext l reg v). Qed.

(** C10: for every sequence of creation, cancellation and completion
    logs with the same answers of the collaborators, [backend.go] and
    [part_000] leave the registry in the same state. *)
Theorem variants_leave_same_registry events (reg : Registry) :
  (run backend_go events reg).1 = (run part_000 events reg).1.
Proof. by rewrite !run_registry. Qed.

(** ** More on the registry *)

Lemma effect_other_address e (reg : Registry) b :
  event_address e <> b -> effect e reg !! b = reg !! b.
Proof.
  destruct e as [ext l|ext l|ext l]; cbn [effect event_address]; intros Hne.
  - destruct (decodes ext l); [by rewrite lookup_insert_ne|done].
  - by rewrite lookup_delete_ne.
  - done.
Qed.

Lemma effect_keyed e (reg : Registry) :
  keyed_by_own_address reg -> keyed_by_own_address (effect e reg).
Proof.
  unfold keyed_by_own_address.
  destruct e as [ext l|ext l|ext l]; cbn [effect]; intros Hreg.
  - destruct (decodes ext l); [|done]. by apply map_Forall_insert_2.
  - by apply map_Forall_delete.
  - done.
Qed.

(** The same creation log processed twice in a row, with the same
    answers, leaves the registry as processing it once does, whatever
    follows. *)
Theorem creation_replay_same_registry v ext l rest (reg : Registry) :
  (run v (NewExtension ext l :: NewExtension ext l :: rest) reg).1
  = (run v (NewExtension ext l :: rest) reg).1.
Proof.
  rewrite !run_cons. cbn [effect].
  destruct (decodes ext l); [|done]. by rewrite insert_insert_eq.
Qed.

(** A creation log followed by a cancellation log of the same address
    gives back the registry there was, when it had no record at that
    address. *)
Theorem create_then_cancel_restores v ext l ext' l' (reg : Registry) :
  reg !! Log.Address l = None ->
  Log.Address l' = Log.Address l ->
  (run v [NewExtension ext l; Finished ext' l'] reg).1 = reg.
Proof.
  intros Hnone Haddr. rewrite !run_cons. cbn [run effect fst]. rewrite Haddr.
  destruct (decodes ext l); [rewrite delete_insert_eq|]; by apply delete_id.
Qed.

Lemma create_then_cancel_restores_witness :
  ({[ 205%N := record_at 205%N ]} : Registry) !! Log.Address (log_at 204%N) = None
  /\ Log.Address (log_at 204%N) = Log.Address (log_at 204%N)
  /\ (run backend_go [NewExtension all_fine (log_at 204%N);
                      Finished save_fails_always (log_at 204%N)]
        {[ 205%N := record_at 205%N ]}).1
     = {[ 205%N := record_at 205%N ]}.
Proof.
  split; [reflexivity|]. split; [reflexivity|].
  apply (create_then_cancel_restores backend_go all_fine (log_at 204%N)
           save_fails_always (log_at 204%N) {[ 205%N := record_at 205%N ]});
    reflexivity.
Defined.

Lemma run_other_address v events (reg : Registry) b :
  Forall (fun e => event_address e <> b) events ->
  (run v events reg).1 !! b = reg !! b.
Proof.
  revert reg; induction events as [|e rest IH]; intros reg Hne; [done|].
  apply Forall_cons in Hne as [He Hrest].
  rewrite run_cons, IH by done. by apply effect_other_address.
Qed.

(** Logs of other addresses leave the record at an address alone: after
    any run none of whose logs is at [b], the registry holds at [b] what
    it held before. *)
Theorem other_addresses_untouched v events (reg : Registry) b :
  Forall (fun e => event_address e <> b) events ->
  (run v events reg).1 !! b = reg !! b.
Proof. apply run_other_address. Qed.

Lemma other_addresses_untouched_witness :
  Forall (fun e => event_address e <> 205%N)
    [NewExtension all_fine (log_at 204%N); Finished all_fine (log_at 206%N)]
  /\ (run part_000 [NewExtension all_fine (log_at 204%N);
                    Finished all_fine (log_at 206%N)]
        {[ 205%N := record_at 205%N ]}).1 !! 205%N
     = ({[ 205%N := record_at 205%N ]} : Registry) !! 205%N.
Proof.
  assert (Forall (fun e => event_address e <> 205%N)
            [NewExtension all_fine (log_at 204%N);
             Finished all_fine (log_at 206%N)]) as Hne
    by (repeat constructor; discriminate).
  split; [exact Hne|].
  exact (other_addresses_untouched part_000 _ {[ 205%N := record_at 205%N ]}
           205%N Hne).
Defined.

(** Every record the watchers insert sits at the key that is its own
    management contract address: a registry with that property keeps it
    through every run. *)
Theorem records_keyed_by_own_address v events (reg : Registry) :
  keyed_by_own_address reg ->
  keyed_by_own_address (run v events reg).1.
Proof.
  revert reg; induction events as [|e rest IH]; intros reg Hreg; [done|].
  rewrite run_cons. by apply IH, effect_keyed.
Qed.

Lemma records_keyed_by_own_address_witness :
  keyed_by_own_address ∅
  /\ keyed_by_own_address
       (run backend_go [NewExtension all_fine (log_at 204%N);
                        NewExtension lookups_fail (log_at 205%N)] ∅).1.
Proof.
  assert (keyed_by_own_address ∅) as Hempty by apply map_Forall_empty.
  split; [exact Hempty|].
  exact (records_keyed_by_own_address backend_go _ ∅ Hempty).
Defined.

(** A record [New] loaded from disk is still in the registry, unchanged,
    after any run that has no log at its address. *)
Theorem loaded_record_kept v load events a rec :
  failed load = false ->
  load.1 !! a = Some rec ->
  Forall (fun e => event_address e <> a) events ->
  exists reg, New load = (Some reg, None)
              /\ (run v events reg).1 !! a = Some rec.
Proof.
  unfold failed, New. intros Hload Hrec Hne. exists load.1.
  destruct load.2; [done|]. split; [done|].
  by rewrite run_other_address.
Qed.

Lemma loaded_record_kept_witness :
  failed (ok ({[ 205%N := record_at 205%N ]} : Registry)) = false
  /\ (ok ({[ 205%N := record_at 205%N ]} : Registry)).1 !! 205%N
     = Some (record_at 205%N)
  /\ Forall (fun e => event_address e <> 205%N)
       [CanPerformStateShare all_fine (log_at 204%N)]
  /\ exists reg, New (ok {[ 205%N := record_at 205%N ]}) = (Some reg, None)
       /\ (run backend_go [CanPerformStateShare all_fine (log_at 204%N)] reg).1
            !! 205%N = Some (record_at 205%N).
Proof.
  assert (Forall (fun e => event_address e <> 205%N)
            [CanPerformStateShare all_fine (log_at 204%N)]) as Hne
    by (repeat constructor; discriminate).
  split; [reflexivity|]. split; [reflexivity|]. split; [exact Hne|].
  exact (loaded_record_kept backend_go (ok {[ 205%N := record_at 205%N ]})
           _ 205%N (record_at 205%N) eq_refl eq_refl Hne).
Defined.

(** When [Load] fails [New] returns no service and an error that wraps
    the error of [Load]. *)
Example New_load_failed :
  New (ko ∅)
  = (None, Some "could not load existing extension contracts: failed").
Proof. reflexivity. Qed.

(** ** Cancellation *)

(** A cancellation log whose address has no record changes nothing:
    the handler takes and releases the mutex, and neither deletes nor
    saves. *)
Theorem cancel_unknown_address_is_noop v ext l (reg : Registry) :
  reg !! Log.Address l = None ->
  watchForCancelledContracts_case_log v ext l reg
  = (Some tt, reg, [MuLock; MuUnlock]).
Proof.
  intros Hnone. destruct v; unfold_handlers; cbn.
  all: rewrite bool_decide_eq_false_2; [done|].
  all: rewrite Hnone; by intros [? ?].
Qed.

Lemma cancel_unknown_address_is_noop_witness :
  ({[ 205%N := record_at 205%N ]} : Registry) !! Log.Address (log_at 204%N) = None
  /\ watchForCancelledContracts_case_log backend_go save_fails_always
       (log_at 204%N) {[ 205%N := record_at 205%N ]}
     = (Some tt, {[ 205%N := record_at 205%N ]}, [MuLock; MuUnlock]).
Proof.
  split; [reflexivity|].
  apply (cancel_unknown_address_is_noop backend_go save_fails_always
           (log_at 204%N) {[ 205%N := record_at 205%N ]}).
  reflexivity.
Defined.

(** A cancellation log whose address has a record deletes it and calls
    [Save] once, with the registry without the record; the deletion
    stands whether [Save] succeeds or not. *)
Theorem cancel_known_address_deletes_and_saves v ext l (reg : Registry) rec :
  reg !! Log.Address l = Some rec ->
  registry_of (watchForCancelledContracts_case_log v ext l reg)
  = delete (Log.Address l) reg
  /\ List.filter (fun a => is_mutation a || is_Save a)
       (actions_of (watchForCancelledContracts_case_log v ext l reg))
     = [MapDelete (Log.Address l); Save (delete (Log.Address l) reg)].
Proof.
  intros Hsome. split; [apply (cancelled_contracts_registry ext l reg v)|].
  destruct v; unfold_handlers; cbn.
  all: rewrite bool_decide_eq_true_2 by (by rewrite Hsome); cbn.
  all: branches; done.
Qed.

Lemma cancel_known_address_deletes_and_saves_witness :
  ({[ 204%N := record_at 204%N ]} : Registry) !! Log.Address (log_at 204%N)
    = Some (record_at 204%N)
  /\ registry_of (watchForCancelledContracts_case_log backend_go
                    save_fails_always (log_at 204%N)
                    {[ 204%N := record_at 204%N ]})
     = delete (Log.Address (log_at 204%N)) {[ 204%N := record_at 204%N ]}
  /\ List.filter (fun a => is_mutation a || is_Save a)
       (actions_of (watchForCancelledContracts_case_log backend_go
                      save_fails_always (log_at 204%N)
                      {[ 204%N := record_at 204%N ]}))
     = [MapDelete (Log.Address (log_at 204%N));
        Save (delete (Log.Address (log_at 204%N)) {[ 204%N := record_at 204%N ]})].
Proof.
  split; [reflexivity|].
  apply (cancel_known_address_deletes_and_saves backend_go save_fails_always
           (log_at 204%N) {[ 204%N := record_at 204%N ]} (record_at 204%N)).
  reflexivity.
Defined.

(** ** The mutex *)




(** The checker of the mutex refuses a path that forgets the unlock. *)
Example lock_discipline_refuses :
  lock_discipline false [MuLock; UnpackLog []] = false
  /\ lock_discipline false [MuLock; MuUnlock; MuUnlock] = false.
Proof. split; reflexivity. Qed.

(** The completion watcher makes all its calls on collaborators with the
    mutex held, in both variants. *)
Theorem completion_calls_under_lock v ext l (reg : Registry) :
  all_while is_external true false
    (actions_of (watchForCompletionEvents_case_log v ext l reg)) = true.
Proof.
  name_actions; destruct v; unfold_handlers; cbn.
  all: branches; intros ->; done.
Qed.

(** The creation watcher looks up the transaction, recovers the sender,
    decodes, stores and saves with the mutex held, and makes the calls
    of the self voting (is-sender query, participants, caller, creator,
    vote) with the mutex released. *)
Theorem creation_votes_outside_lock v ext l (reg : Registry) :
  all_while is_insertion_call true false
    (actions_of (watchForNewContracts_case_log v ext l reg)) = true
  /\ all_while is_self_vote_call false false
       (actions_of (watchForNewContracts_case_log v ext l reg)) = true.
Proof.
  name_actions; destruct v; unfold_handlers; cbn.
  all: branches; intros ->; done.
Qed.

(** ** The self-approval vote *)

(** When the vote is submitted it is the one for the log's address,
    approving, sent from the creator the management contract names, and
    private for the participants of the creation payload. *)
Theorem self_vote_arguments v ext l (reg : Registry) :
  votes ext l reg = true ->
  List.filter is_vote (actions_of (watchForNewContracts_case_log v ext l reg))
  = [self_vote v ext l].
Proof.
  unfold votes, save_fails, decodes, self_vote, creation_payload_hash,
    newContractExtension.
  intros Hvotes.
  apply andb_true_iff in Hvotes as [Hvotes Hp].
  apply andb_true_iff in Hvotes as [Hvotes Hs].
  apply andb_true_iff in Hvotes as [Hd Hsave].
  apply negb_true_iff in Hp, Hsave, Hd.
  cbn [ExtensionContract.CreationData] in Hs, Hp.
  destruct v; unfold_handlers; cbn.
  all: rewrite Hd; cbn; rewrite Hsave; cbn; rewrite Hs; cbn; rewrite Hp; cbn.
  all: branches; done.
Qed.

Lemma self_vote_arguments_witness :
  votes all_fine (log_at 204%N) ∅ = true
  /\ List.filter is_vote
       (actions_of (watchForNewContracts_case_log part_000 all_fine
                      (log_at 204%N) ∅))
     = [VoteOnContract 204%N true
          {| SendTxArgs.From := 187%N;
             SendTxArgs.PrivateFor := ["party1"; "party2"] |}].
Proof.
  split; [reflexivity|].
  apply (self_vote_arguments part_000 all_fine (log_at 204%N) ∅).
  reflexivity.
Defined.



(** ** The steps of the state share *)

Ltac share_steps :=
  cbn [steps List.filter is_step is_external up_to_failure state_share_steps
       checked_by_backend checked_by_part_000 answer_failed andb negb
       fst snd];
  use_answers;
  cbn [andb negb];
  try reflexivity.

Lemma backend_steps ext l (reg : Registry) extensionEntry :
  reg !! Log.Address l = Some extensionEntry ->
  steps (actions_of (Backend.watchForCompletionEvents_case_log ext l reg))
  = up_to_failure checked_by_backend ext (state_share_steps ext l extensionEntry).
Proof.
  intros Hentry.
  remember (up_to_failure checked_by_backend ext
              (state_share_steps ext l extensionEntry)) as protocol eqn:Hp.
  name_actions. unfold_handlers. cbn. rewrite Hentry. branches.
  all: intros ->; subst protocol; share_steps.
Qed.

Lemma part_000_steps ext l (reg : Registry) extensionEntry :
  reg !! Log.Address l = Some extensionEntry ->
  steps (actions_of (Part000.watchForCompletionEvents_case_log ext l reg))
  = up_to_failure checked_by_part_000 ext (state_share_steps ext l extensionEntry).
Proof.
  intros Hentry.
  remember (up_to_failure checked_by_part_000 ext
              (state_share_steps ext l extensionEntry)) as protocol eqn:Hp.
  name_actions. unfold_handlers. cbn. rewrite Hentry. branches.
  all: intros ->; subst protocol; share_steps.
  all: rewrite ?andb_false_r; reflexivity.
Qed.

Lemma up_to_failure_prefix ext t :
  up_to_failure checked_by_backend ext t
    `prefix_of` up_to_failure checked_by_part_000 ext t.
Proof.
  induction t as [|a t IH]; [done|]. cbn [up_to_failure].
  apply prefix_cons.
  destruct (checked_by_part_000 a) eqn:Hc; cbn [checked_by_backend andb].
  - by destruct (answer_failed ext a).
  - destruct (answer_failed ext a); [apply prefix_nil|done].
Qed.

(** [backend.go] performs the steps of the state share in order, each
    fed with what the steps before returned, up to and including the
    first step that fails: a failed lookup of the caller, of the
    creator, a missing account, and so on to [SetSharedStateHash]. *)
Theorem backend_performs_steps_up_to_first_failure
    ext l (reg : Registry) extensionEntry :
  reg !! Log.Address l = Some extensionEntry ->
  steps (actions_of (Backend.watchForCompletionEvents_case_log ext l reg))
  = up_to_failure checked_by_backend ext (state_share_steps ext l extensionEntry).
Proof. apply backend_steps. Qed.

Lemma backend_performs_steps_up_to_first_failure_witness :
  ({[ 204%N := record_at 204%N ]} : Registry) !! Log.Address (log_at 204%N)
    = Some (record_at 204%N)
  /\ steps (actions_of (Backend.watchForCompletionEvents_case_log receive_fails
                          (log_at 204%N) {[ 204%N := record_at 204%N ]}))
     = [ Caller 204%N; Creator 204%N; AccountExists 187%N; GetParticipants 2%N;
         GenerateTransactOptions
           {| SendTxArgs.From := 187%N;
              SendTxArgs.PrivateFor := ["party1"; "party2"] |};
         TargetRecipientPublicKeyHash 204%N; Base64Decode "a2V5";
         Receive [x6b; x65; x79] ].
Proof.
  split; [reflexivity|].
  rewrite (backend_performs_steps_up_to_first_failure receive_fails
             (log_at 204%N) {[ 204%N := record_at 204%N ]} (record_at 204%N));
    reflexivity.
Defined.

(** [part_000] performs the same steps in the same order, but stops only
    at a missing account or a failed fetch of the participants; after
    any other failed step it goes on with the value the step returned. *)
Theorem part_000_performs_steps_up_to_checked_failure
    ext l (reg : Registry) extensionEntry :
  reg !! Log.Address l = Some extensionEntry ->
  steps (actions_of (Part000.watchForCompletionEvents_case_log ext l reg))
  = up_to_failure checked_by_part_000 ext
      (state_share_steps ext l extensionEntry).
Proof. apply part_000_steps. Qed.

Lemma part_000_performs_steps_up_to_checked_failure_witness :
  ({[ 204%N := record_at 204%N ]} : Registry) !! Log.Address (log_at 204%N)
    = Some (record_at 204%N)
  /\ steps (actions_of (Part000.watchForCompletionEvents_case_log
                          participants_fail (log_at 204%N)
                          {[ 204%N := record_at 204%N ]}))
     = [ Caller 204%N; Creator 204%N; AccountExists 187%N; GetParticipants 2%N ].
Proof.
  split; [reflexivity|].
  rewrite (part_000_performs_steps_up_to_checked_failure participants_fail
             (log_at 204%N) {[ 204%N := record_at 204%N ]} (record_at 204%N));
    reflexivity.
Defined.

(** For every completion log and every answers of the collaborators,
    the steps [backend.go] performs are a prefix of the steps [part_000]
    performs: same calls, same arguments, same order, [backend.go]
    stopping no later. *)
Theorem backend_steps_prefix_of_part_000 ext l (reg : Registry) :
  steps (actions_of (Backend.watchForCompletionEvents_case_log ext l reg))
    `prefix_of`
  steps (actions_of (Part000.watchForCompletionEvents_case_log ext l reg)).
Proof.
  destruct (reg !! Log.Address l) as [extensionEntry|] eqn:Hentry.
  - rewrite (backend_steps _ _ _ _ Hentry), (part_000_steps _ _ _ _ Hentry).
    apply up_to_failure_prefix.
  - unfold_handlers; cbn; rewrite Hentry; done.
Qed.

(** When no step fails the two variants perform exactly the same steps,
    the thirteen of the state share. *)
Theorem variants_same_steps_without_failure
    ext l (reg : Registry) extensionEntry :
  reg !! Log.Address l = Some extensionEntry ->
  forallb (fun a => negb (answer_failed ext a))
    (state_share_steps ext l extensionEntry) = true ->
  steps (actions_of (Backend.watchForCompletionEvents_case_log ext l reg))
  = state_share_steps ext l extensionEntry
  /\ steps (actions_of (Part000.watchForCompletionEvents_case_log ext l reg))
     = state_share_steps ext l extensionEntry.
Proof.
  intros Hentry Hok.
  rewrite (backend_steps _ _ _ _ Hentry), (part_000_steps _ _ _ _ Hentry).
  revert Hok. generalize (state_share_steps ext l extensionEntry) as t.
  induction t as [|a t IH]; [done|]. cbn [forallb up_to_failure].
  intros [Ha Ht]%andb_true_iff. apply negb_true_iff in Ha. rewrite Ha.
  rewrite !andb_false_r. destruct (IH Ht) as [-> ->]. done.
Qed.

Lemma variants_same_steps_without_failure_witness :
  ({[ 204%N := record_at 204%N ]} : Registry) !! Log.Address (log_at 204%N)
    = Some (record_at 204%N)
  /\ forallb (fun a => negb (answer_failed all_fine a))
       (state_share_steps all_fine (log_at 204%N) (record_at 204%N)) = true
  /\ steps (actions_of (Backend.watchForCompletionEvents_case_log all_fine
                          (log_at 204%N) {[ 204%N := record_at 204%N ]}))
     = state_share_steps all_fine (log_at 204%N) (record_at 204%N)
  /\ steps (actions_of (Part000.watchForCompletionEvents_case_log all_fine
                          (log_at 204%N) {[ 204%N := record_at 204%N ]}))
     = state_share_steps all_fine (log_at 204%N) (record_at 204%N).
Proof.
  split; [reflexivity|]. split; [reflexivity|].
  apply (variants_same_steps_without_failure all_fine (log_at 204%N)
           {[ 204%N := record_at 204%N ]} (record_at 204%N));
    reflexivity.
Defined.

(** ** The loops of the watchers *)

Lemma for_select_return body pre s post reg :
  (forall reg', body s reg' = (Return, reg', [])
                \/ exists t, body s reg' = (Return, reg', t)) ->
  for_select body (pre ++ s :: post) reg = for_select body (pre ++ [s]) reg.
Proof.
  intros Hs. revert reg; induction pre as [|i pre IH]; intros reg.
  - cbn. destruct (Hs reg) as [->|[t ->]]; done.
  - cbn. destruct (body i reg) as [[[] reg1] t1]; [|done]. by rewrite IH.
Qed.


(** Once a watcher has received the stop signal it processes nothing
    more: whatever is delivered after it has no effect, for each of the
    three watchers. *)
Theorem nothing_processed_after_stop case_log pre post (reg : Registry) :
  watchForNewContracts case_log (pre ++ StopChan :: post) reg
  = watchForNewContracts case_log (pre ++ [StopChan]) reg
  /\ watchForCancelledContracts case_log (pre ++ StopChan :: post) reg
     = watchForCancelledContracts case_log (pre ++ [StopChan]) reg
  /\ watchForCompletionEvents case_log (pre ++ StopChan :: post) reg
     = watchForCompletionEvents case_log (pre ++ [StopChan]) reg.
Proof.
  repeat split; apply for_select_return; intros reg'; by left.
Qed.

(** What a subscription error does: it ends the cancellation watcher,
    which processes nothing after it; the creation watcher only logs it
    and goes on with what follows ([break] leaves the [select], not the
    loop). Neither touches the registry on the error itself. *)
Theorem subscription_error_ends_cancellation_watcher_only
    case_log err pre rest (reg : Registry) :
  watchForCancelledContracts case_log (pre ++ SubscriptionErr err :: rest) reg
  = watchForCancelledContracts case_log (pre ++ [SubscriptionErr err]) reg
  /\ watchForCancelledContracts case_log (SubscriptionErr err :: rest) reg
     = (reg, [LogLine LvlError
                "Contract cancellation extension watcher subscription error"])
  /\ watchForNewContracts case_log (SubscriptionErr err :: rest) reg
     = ((watchForNewContracts case_log rest reg).1,
        LogLine LvlError "Contract extension watcher subscription error"
        :: (watchForNewContracts case_log rest reg).2).
Proof.
  split; [|split].
  - apply for_select_return; intros reg'; right; by eexists.
  - done.
  - unfold watchForNewContracts. cbn [for_select watchForNewContracts_select].
    by destruct (for_select _ rest reg).
Qed.


(** ** [initialise] *)

Lemma initialise_loop_go subscriptions fs w :
  existsb (is_Go w) (initialise_loop subscriptions fs)
  = existsb (fun f => is_Go w (Go f) && negb (is_err (subscriptions f))) fs.
Proof.
  induction fs as [|f fs IH]; [done|]. cbn [initialise_loop existsb].
  rewrite <- IH. unfold watchFor_start.
  destruct (subscriptions f) as [err|]; cbn [is_err negb].
  - rewrite andb_false_r. by destruct w.
  - rewrite andb_true_r. by destruct w, f.
Qed.

(** [initialise] starts the goroutine of a watcher exactly when the node
    could be attached and that watcher's own subscription succeeded: a
    failed subscription of one watcher does not keep the other two from
    starting. *)
Theorem watcher_started_iff_subscribed attach subscriptions w :
  existsb (is_Go w) (initialise attach subscriptions)
  = negb (is_err attach) && negb (is_err (subscriptions w)).
Proof.
  unfold initialise. destruct attach as [err|]; cbn [is_err negb andb].
  - by destruct w.
  - rewrite !existsb_app, initialise_loop_go. cbn.
    destruct w; cbn; rewrite ?orb_false_r; done.
Qed.

(** [initialise] takes the mutex first and releases it last, also when
    it panics because the node cannot be attached; it logs one error
    per failed subscription, and none when it panics. *)
Theorem initialise_unlocks_and_logs attach subscriptions :
  head (initialise attach subscriptions) = Some InitLock
  /\ last (initialise attach subscriptions) = Some InitUnlock
  /\ length (List.filter is_InitLogError (initialise attach subscriptions))
     = if is_err attach then 0 else failed_subscriptions subscriptions.
Proof.
  unfold initialise. split; [done|]. split.
  - by rewrite app_assoc, last_snoc.
  - destruct attach as [err|]; [done|].
    unfold failed_subscriptions. cbn. unfold watchFor_start.
    destruct (subscriptions NewContractsWatcher),
      (subscriptions CancelledContractsWatcher),
      (subscriptions CompletionEventsWatcher); reflexivity.
Qed.

(** ** What [Save] is handed *)

Lemma replay_app t1 t2 reg :
  replay reg (t1 ++ t2) = replay (replay reg t1) t2.
Proof.
  revert reg; induction t1 as [|a t1 IH]; intros reg; [done|].
  destruct a; cbn; apply IH.
Qed.

Lemma saves_current_app t1 t2 reg :
  saves_current reg t1 -> saves_current (replay reg t1) t2 ->
  saves_current reg (t1 ++ t2).
Proof.
  revert reg; induction t1 as [|a t1 IH]; intros reg H1 H2; [done|].
  destruct a; cbn in *; try (by apply IH).
  destruct H1 as [-> H1]. split; [done|]. by apply IH.
Qed.

Lemma process_saves_current v e reg :
  saves_current reg (actions_of (process v e reg))
  /\ replay reg (actions_of (process v e reg)) = registry_of (process v e reg).
Proof.
  destruct e as [ext l|ext l|ext l]; cbn [process].
  all: destruct v; unfold_handlers; cbn.
  all: try case_bool_decide; cbn.
  all: branches; done.
Qed.

(** In every run of either variant each call of [Save] is handed the
    registry exactly as the stores and deletes so far have left it, and
    the stores and deletes recorded account for the whole change of the
    registry. *)
Theorem save_is_handed_current_registry v events (reg : Registry) :
  saves_current reg (run v events reg).2
  /\ replay reg (run v events reg).2 = (run v events reg).1.
Proof.
  revert reg; induction events as [|e rest IH]; intros reg; [done|].
  cbn [run]. destruct (process_saves_current v e reg) as [Hs Hr].
  unfold actions_of, registry_of in *.
  destruct (process v e reg) as [[o reg1] t1]; cbn [fst snd] in *.
  destruct (IH reg1) as [Hs' Hr'].
  destruct (run v rest reg1) as [reg2 t2]; cbn [fst snd] in *.
  rewrite replay_app, Hr. split; [|done].
  apply saves_current_app; [done|]. by rewrite Hr.
Qed.



(** ** What the completion watcher logs *)

(** For a completion log whose address has a record, the handler logs
    one error or warning when a step whose failure it checks has failed,
    and none otherwise: [backend.go] reports every failed step, once;
    [part_000] reports a missing account or a failed fetch of the
    participants and is silent about every other failure. *)
Theorem completion_logs_checked_failure_once
    v ext l (reg : Registry) extensionEntry :
  reg !! Log.Address l = Some extensionEntry ->
  length (List.filter is_problem_log
            (actions_of (watchForCompletionEvents_case_log v ext l reg)))
  = if no_checked_failure v ext (state_share_steps ext l extensionEntry)
    then 0 else 1.
Proof.
  intros Hentry.
  remember (if no_checked_failure v ext (state_share_steps ext l extensionEntry)
            then 0 else 1) as lines eqn:Hlines.
  name_actions. destruct v; unfold_handlers; cbn; rewrite Hentry; branches.
  all: intros ->; subst lines.
  all: cbn [no_checked_failure checked forallb state_share_steps
            checked_by_backend checked_by_part_000 answer_failed andb negb
            fst snd];
       use_answers; cbn [andb negb]; rewrite ?andb_false_r; reflexivity.
Qed.

Lemma completion_logs_checked_failure_once_witness :
  ({[ 204%N := record_at 204%N ]} : Registry) !! Log.Address (log_at 204%N)
    = Some (record_at 204%N)
  /\ length (List.filter is_problem_log
               (actions_of (watchForCompletionEvents_case_log part_000
                              receive_fails (log_at 204%N)
                              {[ 204%N := record_at 204%N ]}))) = 0
  /\ length (List.filter is_problem_log
               (actions_of (watchForCompletionEvents_case_log backend_go
                              receive_fails (log_at 204%N)
                              {[ 204%N := record_at 204%N ]}))) = 1.
Proof.
  split; [reflexivity|]. split.
  - rewrite (completion_logs_checked_failure_once part_000 receive_fails
               (log_at 204%N) {[ 204%N := record_at 204%N ]} (record_at 204%N));
      reflexivity.
  - rewrite (completion_logs_checked_failure_once backend_go receive_fails
               (log_at 204%N) {[ 204%N := record_at 204%N ]} (record_at 204%N));
      reflexivity.
Defined.

(** the checker of the mutex on calls refuses a call made on the wrong
    side of the lock *)
Example all_while_refuses :
  all_while is_external true false [MuLock; MuUnlock; IsSender 2%N] = false
  /\ all_while is_self_vote_call false false [MuLock; IsSender 2%N; MuUnlock]
     = false.
Proof. split; reflexivity. Qed.

(** ** The creation watcher on a transaction pointer *)

Ltac unfold_ptr_handlers :=
  unfold watchForNewContracts_case_log_ptr,
    Backend_ptr.watchForNewContracts_case_log,
    Part000_ptr.watchForNewContracts_case_log,
    Sender_ptr, Data_ptr, on_nil, lift, bindP, retP.

(** split on the pointer, on the two methods on nil and on the decoding *)
Ltac pointer_cases txs ext l :=
  destruct (extClient_TransactionByHash_ptr txs (Log.TxHash l)).1 as [?t|];
  cbn;
  try (destruct (Sender_of_nil txs) as [?from_|]; cbn; [|done]);
  (destruct (failed (UnpackNewExtensionCreatedLog ext (Log.Data l)));
   cbn; [done|]);
  try (destruct (Data_of_nil txs) as [?data|]; cbn; [|done]).

(** What the creation watcher does for every log, pointer and behaviour
    of the two methods on nil: it panics at [Sender(tx)] when that
    panics; otherwise it leaves an undecodable log; otherwise it panics
    at [tx.Data()] when that panics; otherwise it inserts the record,
    built from what the two calls returned. A panic leaves the registry
    as it was. *)
Lemma creation_on_pointer v txs ext l (reg : Registry) :
  match sender_on_lookup txs ext l with
  | None =>
      (watchForNewContracts_case_log_ptr v txs ext l reg).1 = (Panicked, reg)
  | Some from_ =>
      if decodes ext l then
        match data_on_lookup txs l with
        | None =>
            (watchForNewContracts_case_log_ptr v txs ext l reg).1
            = (Panicked, reg)
        | Some data =>
            has_panicked (watchForNewContracts_case_log_ptr v txs ext l reg).1.1
            = false
            /\ (watchForNewContracts_case_log_ptr v txs ext l reg).1.2
               = <[Log.Address l := {|
                     ExtensionContract.Address :=
                       NewExtensionCreated.ToExtend
                         (UnpackNewExtensionCreatedLog ext (Log.Data l)).1;
                     ExtensionContract.Initiator := from_.1;
                     ExtensionContract.ManagementContractAddress := Log.Address l;
                     ExtensionContract.CreationData := data
                   |}]> reg
        end
      else
        (watchForNewContracts_case_log_ptr v txs ext l reg).1 = (Continued, reg)
  end.
Proof.
  unfold sender_on_lookup, data_on_lookup, decodes.
  destruct v; unfold_ptr_handlers; unfold_handlers; cbn.
  all: pointer_cases txs ext l.
  all: branches; done.
Qed.

(** On a lookup that returns a transaction the handler on the pointer
    is the handler on the value. *)
Lemma creation_on_pointer_agrees v txs ext l (reg : Registry) t err :
  extClient_TransactionByHash_ptr txs (Log.TxHash l) = (Some t, err) ->
  extClient_TransactionByHash ext (Log.TxHash l) = (t, err) ->
  watchForNewContracts_case_log_ptr v txs ext l reg
  = lift (watchForNewContracts_case_log v ext l) reg.
Proof.
  intros Hptr Hval.
  destruct v; unfold_ptr_handlers; unfold_handlers; cbn.
  all: rewrite Hptr, Hval; cbn.
  all: branches; done.
Qed.

(** A panic happens with the mutex held, and nothing releases it: the
    handler has no deferred unlock. *)
Lemma creation_panic_holds_mutex v txs ext l (reg : Registry) :
  has_panicked (watchForNewContracts_case_log_ptr v txs ext l reg).1.1 = true ->
  held_after_ptr false (watchForNewContracts_case_log_ptr v txs ext l reg).2
  = true
  /\ (watchForNewContracts_case_log_ptr v txs ext l reg).1.2 = reg.
Proof.
  destruct v; unfold_ptr_handlers; unfold_handlers; cbn.
  all: pointer_cases txs ext l.
  all: branches; done.
Qed.

Example creation_on_found_transaction :
  watchForNewContracts_case_log_ptr backend_go transaction_found all_fine
    (log_at 204%N) ∅
  = lift (watchForNewContracts_case_log backend_go all_fine (log_at 204%N)) ∅.
Proof.
  apply (creation_on_pointer_agrees backend_go transaction_found all_fine
           (log_at 204%N) ∅ {| Transaction.Data := [x01; x02] |} None);
    reflexivity.
Qed.

(** C9: a failed transaction lookup is not discarded when it returns
    the nil pointer and the methods of the transaction dereference it.
    The payload decodes, yet the creation watcher panics at
    [Sender(tx)], before the decoding, in both variants: no record is
    inserted and the mutex stays held. Only if the two methods return on
    nil is the record inserted with their zero values, as the claim
    says. *)
Theorem creation_panics_on_nil_transaction :
  decodes all_fine (log_at 204%N) = true
  /\ Backend_ptr.watchForNewContracts_case_log nil_dereferenced all_fine
       (log_at 204%N) ∅
     = (Panicked, ∅,
        [Plain MuLock; Plain (TransactionByHash 11%N); SenderOfNil])
  /\ Part000_ptr.watchForNewContracts_case_log nil_dereferenced all_fine
       (log_at 204%N) ∅
     = (Panicked, ∅,
        [Plain MuLock; Plain (TransactionByHash 11%N); SenderOfNil])
  /\ held_after_ptr false
       [Plain MuLock; Plain (TransactionByHash 11%N); SenderOfNil] = true
  /\ (Backend_ptr.watchForNewContracts_case_log nil_tolerated all_fine
        (log_at 204%N) ∅).1.2 !! 204%N
     = Some {| ExtensionContract.Address := 170%N;
               ExtensionContract.Initiator := 0%N;
               ExtensionContract.ManagementContractAddress := 204%N;
               ExtensionContract.CreationData := [] |}.
Proof. repeat split; reflexivity. Qed.
